(** * WordPressManager: a shallow embedding of [wordpress_manager.py]

    The client is a flat catalogue of methods, each of which builds one
    request from its arguments and hands it to [requests].  The embedding
    keeps that shape: every method is a computation in a small
    state-and-exception monad whose state holds the object ([self]), the
    list of requests handed to the HTTP library, the list of prompts handed
    to the text-generation service and the file system.

    Conventions.
    - Python [str] is [string], the text in UTF-8.  What the client does
      with text by looking for ASCII characters (splitting at newlines and
      slashes, stripping [#], spaces and slashes, testing a prefix, joining)
      is the same on the encoded text.  The two built-ins that know Unicode,
      [str.strip()] and [str.title()], are modelled on ASCII text and taken
      from the environment for any other text.
    - Python [int] is [Z]; [Optional[T]] is [option T]; a [dict] with string
      keys is an association list kept in insertion order.
    - Logging is not modelled.  An [except] clause that only logs and
      re-raises the exception it caught is therefore the identity on
      outcomes and does not appear; the one handler that raises a different
      exception ([authenticate]) is modelled with [try_except]. *)

From Stdlib Require Import ZArith List String Ascii Bool Lia DecimalString.
Import ListNotations.
Local Open Scope string_scope.
Local Open Scope Z_scope.
Set Warnings "-register-all".

(** ** Python built-ins used by the client *)

Module Py.

(** [str(n)] for an [int]. *)
Definition str_int (n : Z) : string := NilZero.string_of_int (Z.to_int n).

(** [s.startswith(p)]. *)
Definition startswith (p s : string) : bool := String.prefix p s.

Fixpoint mem_char (c : ascii) (cs : string) : bool :=
  match cs with
  | EmptyString => false
  | String d cs' => if Ascii.eqb c d then true else mem_char c cs'
  end.

(** The ASCII characters for which [str.isspace] holds:
    tab, LF, VT, FF, CR, the separators 0x1c-0x1f and the space. *)
Definition isspace (c : ascii) : bool :=
  let n := nat_of_ascii c in
  ((9 <=? n) && (n <=? 13) || (28 <=? n) && (n <=? 32))%nat.

Fixpoint lstrip_by (p : ascii -> bool) (s : string) : string :=
  match s with
  | EmptyString => EmptyString
  | String c s' => if p c then lstrip_by p s' else s
  end.

Fixpoint rstrip_by (p : ascii -> bool) (s : string) : string :=
  match s with
  | EmptyString => EmptyString
  | String c s' =>
      match rstrip_by p s' with
      | EmptyString => if p c then EmptyString else String c EmptyString
      | r => String c r
      end
  end.

(** [s.rstrip(chars)] and [s.strip(chars)], for ASCII [chars], and
    [s.strip()] for an ASCII [s]. *)
Definition rstrip_chars (chars s : string) : string :=
  rstrip_by (fun c => mem_char c chars) s.

Definition strip_chars (chars s : string) : string :=
  rstrip_by (fun c => mem_char c chars) (lstrip_by (fun c => mem_char c chars) s).

Definition strip (s : string) : string :=
  rstrip_by isspace (lstrip_by isspace s).

(** [s.split(sep)] for a one-character separator: never the empty list. *)
Fixpoint split (sep : ascii) (s : string) : list string :=
  match s with
  | EmptyString => [EmptyString]
  | String c s' =>
      if Ascii.eqb c sep then EmptyString :: split sep s'
      else match split sep s' with
           | [] => [String c EmptyString]
           | w :: ws => String c w :: ws
           end
  end.

(** [sep.join(parts)]. *)
Definition join (sep : string) (parts : list string) : string :=
  String.concat sep parts.

Definition is_lower (c : ascii) : bool :=
  let n := nat_of_ascii c in ((97 <=? n) && (n <=? 122))%nat.

Definition is_upper (c : ascii) : bool :=
  let n := nat_of_ascii c in ((65 <=? n) && (n <=? 90))%nat.

Definition to_upper (c : ascii) : ascii :=
  if is_lower c then ascii_of_nat (nat_of_ascii c - 32) else c.

Definition to_lower (c : ascii) : ascii :=
  if is_upper c then ascii_of_nat (nat_of_ascii c + 32) else c.

(** [s.title()] for an ASCII [s]: a cased character is upper-cased when
    the previous character is not cased and lower-cased when it is. *)
Fixpoint title_from (prev_cased : bool) (s : string) : string :=
  match s with
  | EmptyString => EmptyString
  | String c s' =>
      if is_lower c || is_upper c
      then String (if prev_cased then to_lower c else to_upper c) (title_from true s')
      else String c (title_from false s')
  end.

Definition title (s : string) : string := title_from false s.

(** [os.path.basename(p)]: what follows the last slash. *)
Definition basename (p : string) : string := last (split "/" p) EmptyString.

End Py.

(** Every character of [s] satisfies [p]. *)
Fixpoint all_chars (p : ascii -> bool) (s : string) : bool :=
  match s with
  | EmptyString => true
  | String c s' => p c && all_chars p s'
  end.

(** The characters of ASCII, which UTF-8 encodes in one byte below 128. *)
Definition is_ascii (c : ascii) : bool := (nat_of_ascii c <? 128)%nat.

(** ** Values *)

(** Decoded JSON, which is also the shape of the Python values the client
    puts in request bodies.  [JNull] is Python's [None]. *)
Inductive json : Type :=
| JNull
| JBool (b : bool)
| JInt (n : Z)
| JStr (s : string)
| JArr (items : list json)
| JObj (fields : list (string * json)).

(** A [dict] with string keys, in insertion order. *)
Definition dict (V : Type) : Type := list (string * V).

Fixpoint dict_get {V} (k : string) (d : dict V) : option V :=
  match d with
  | [] => None
  | (k', v) :: d' => if String.eqb k k' then Some v else dict_get k d'
  end.

(** [d[k] = v]: overwrite in place, or append a new key. *)
Fixpoint dict_set {V} (k : string) (v : V) (d : dict V) : dict V :=
  match d with
  | [] => [(k, v)]
  | (k', v') :: d' =>
      if String.eqb k k' then (k, v) :: d' else (k', v') :: dict_set k v d'
  end.

Definition dict_keys {V} (d : dict V) : list string := map fst d.

(** Truth value of the optional arguments: [None], the empty string, the
    empty list and [0] are all false. *)
Definition truthy_str (o : option string) : bool :=
  match o with
  | Some s => negb (String.eqb s "")
  | None => false
  end.

Definition truthy_int (o : option Z) : bool :=
  match o with
  | Some n => negb (Z.eqb n 0)
  | None => false
  end.

Definition truthy_list {A} (o : option (list A)) : bool :=
  match o with
  | Some (_ :: _) => true
  | _ => false
  end.

(** The value a truthy optional argument holds. *)
Definition str_arg (o : option string) : json :=
  match o with Some s => JStr s | None => JNull end.

Definition int_arg (o : option Z) : json :=
  match o with Some n => JInt n | None => JNull end.

Definition ids_arg (o : option (list Z)) : json :=
  match o with Some l => JArr (map JInt l) | None => JNull end.

(** ** Exceptions *)

(** The subclasses of [requests.RequestException] the client can meet. *)
Inductive request_error : Type :=
| TransportError      (* ConnectionError, Timeout, ... *)
| HTTPError           (* raised by [raise_for_status] *)
| JSONDecodeError.    (* raised by [response.json()] *)

Inductive exn : Type :=
| AttributeError (msg : string)
| TypeError (msg : string)
| KeyError (key : string)
| IndexError
| ValueError (msg : string)
| RequestException (kind : request_error) (msg : string)
| PlainException (msg : string)          (* [Exception(msg)] *)
| FileNotFoundError (path : string)
| FileExistsError (path : string)
| NotADirectoryError (path : string)
| IsADirectoryError (path : string)
| ServiceError (msg : string).           (* raised by the generative-AI library *)

(** ** HTTP *)

Inductive http_method : Type := GET | POST | DELETE.

Inductive payload : Type :=
| NoBody
| JsonBody (data : json)                                   (* [json=...] *)
| Multipart (files : dict (string * string))               (* [files=...]: name, content *)
            (data : dict string).                          (* [data=...] *)

(** The arguments of one call of [requests.get/post/delete]. *)
Record request : Type := mkRequest {
  req_method : http_method;
  req_url : string;
  req_headers : option (dict string);
  req_body : payload;
  req_timeout : Z
}.

(** What came back: the status line and the body, already decoded when it
    is JSON ([inr] carries the decoder's message when it is not). *)
Record response : Type := mkResponse {
  status_code : Z;
  reason : string;
  resp_url : string;
  body : json + string
}.

Inductive net_result : Type :=
| NetFailure (msg : string)      (* no response: the library raises *)
| NetReply (r : response).

(** ** File system *)

(** A path as [pathlib] splits it: the parts, the first being the root
    for an absolute path. *)
Definition path : Type := list string.

Record filesystem : Type := mkFs {
  is_dir : path -> bool;
  file_content : path -> option string
}.

Record datetime : Type := mkDatetime {
  year : Z; month : Z; day : Z; hour : Z; minute : Z; second : Z
}.

(** ** The world outside the client *)

Record env : Type := mkEnv {
  (** [os.getenv] once [load_dotenv] has run *)
  getenv : string -> option string;
  (** the remote site: its answer to a request, given the earlier ones *)
  server : list request -> request -> net_result;
  (** [genai.configure] followed by [GenerativeModel(name)]: [Some msg]
      when it raises *)
  genai_setup : option string -> string -> option string;
  (** [model.generate_content(prompt).text], given the model name and the
      earlier prompts: [inr msg] when it raises *)
  genai_generate : string -> list string -> string -> string + string;
  (** [datetime.now()] *)
  now : datetime;
  (** [str(v)] for a list or a dict, which the client never relies on *)
  repr_container : json -> string;
  (** [s.strip()] and [s.title()] for a text that is not all ASCII *)
  unicode_strip : string -> string;
  unicode_title : string -> string
}.

(** ** The object and the machine state *)

Record manager : Type := mkManager {
  site_url : string;
  api_url : string;
  jwt_url : string;
  username : option string;
  password : option string;
  gemini_api_key : option string;
  token : json;
  headers : option (dict string);
  gemini_model : option string
}.

Record state : Type := mkState {
  self : manager;
  sent : list request;       (* every request handed to [requests], oldest first *)
  prompts : list string;     (* every prompt handed to the AI service *)
  fs : filesystem
}.

(** ** The monad: state and exceptions *)

Inductive outcome (A : Type) : Type :=
| Return (a : A)
| Raise (e : exn).
Arguments Return {A} a.
Arguments Raise {A} e.

Definition M (A : Type) : Type := state -> outcome A * state.

Definition ret {A} (a : A) : M A := fun s => (Return a, s).

Definition raise {A} (e : exn) : M A := fun s => (Raise e, s).

Definition bind {A B} (m : M A) (k : A -> M B) : M B :=
  fun s =>
    match m s with
    | (Return a, s') => k a s'
    | (Raise e, s') => (Raise e, s')
    end.

Notation "x <- m ;; k" := (bind m (fun x => k))
  (at level 61, m at next level, right associativity).
Notation "m ;;; k" := (bind m (fun _ => k))
  (at level 61, right associativity).

(** [try: m except <handles> as e: h e]; an exception the clause does not
    name ([handles e = None]) propagates. *)
Definition try_except {A} (m : M A) (handles : exn -> option (M A)) : M A :=
  fun s =>
    match m s with
    | (Return a, s') => (Return a, s')
    | (Raise e, s') =>
        match handles e with
        | Some h => h s'
        | None => (Raise e, s')
        end
    end.

Definition get_self : M manager := fun s => (Return (self s), s).

Definition put_self (m : manager) : M unit :=
  fun s => (Return tt, mkState m (sent s) (prompts s) (fs s)).

Definition get_fs : M filesystem := fun s => (Return (fs s), s).

Definition put_fs (f : filesystem) : M unit :=
  fun s => (Return tt, mkState (self s) (sent s) (prompts s) f).

(** ** Paths and the file system *)

Fixpoint path_eqb (p q : path) : bool :=
  match p, q with
  | [], [] => true
  | x :: p', y :: q' => String.eqb x y && path_eqb p' q'
  | _, _ => false
  end.

(** [Path(s)]: empty and [.] components vanish; exactly two leading
    slashes are a root of their own. *)
Definition parse_path (s : string) : path :=
  let parts :=
    filter (fun p => negb (String.eqb p "") && negb (String.eqb p "."))
           (Py.split "/" s) in
  if Py.startswith "//" s && negb (Py.startswith "///" s) then "//" :: parts
  else if Py.startswith "/" s then "/" :: parts
  else parts.

(** [str(p)]. *)
Definition path_str (p : path) : string :=
  match p with
  | [] => "."
  | r :: rest =>
      if String.eqb r "/" || String.eqb r "//" then r ++ Py.join "/" rest
      else Py.join "/" p
  end.

(** [p / name]. *)
Definition path_join (p : path) (name : string) : path :=
  if Py.startswith "/" name then parse_path name else (p ++ parse_path name)%list.

(** The path itself and its ancestors, outermost first. *)
Fixpoint prefixes (p : path) : list path :=
  match p with
  | [] => []
  | x :: r => [x] :: map (cons x) (prefixes r)
  end.

Definition is_file (f : filesystem) (p : path) : bool :=
  match file_content f p with Some _ => true | None => false end.

(** The directory a new entry [p] goes into exists: the anchor of a
    relative path (the working directory) always does. *)
Definition parent_exists (f : filesystem) (p : path) : bool :=
  match removelast p with
  | [] => true
  | q => is_dir f q
  end.

(** [p.mkdir(parents=True, exist_ok=True)]: every missing directory on the
    way is created; a regular file on the way makes it fail. *)
Definition mkdir_parents (p : path) : M unit :=
  f <- get_fs ;;
  match find (is_file f) (prefixes p) with
  | Some q =>
      raise (if path_eqb q p then FileExistsError (path_str p)
             else NotADirectoryError (path_str p))
  | None =>
      put_fs (mkFs (fun q => is_dir f q || existsb (path_eqb q) (prefixes p))
                   (file_content f))
  end.

(** [with open(p, "w") as f: f.write(text)]. *)
Definition write_text (p : path) (text : string) : M unit :=
  f <- get_fs ;;
  if is_dir f p then raise (IsADirectoryError (path_str p))
  else if negb (parent_exists f p) then raise (FileNotFoundError (path_str p))
  else put_fs (mkFs (is_dir f)
                    (fun q => if path_eqb q p then Some text else file_content f q)).

(** The working directory and the roots, which always exist. *)
Definition is_anchor (p : path) : bool :=
  match p with
  | [] => true
  | [r] => String.eqb r "/" || String.eqb r "//"
  | _ => false
  end.

(** The ancestors of [p], outermost first. *)
Definition proper_prefixes (p : path) : list path := removelast (prefixes p).

(** Walking down to a file: the first ancestor that is a regular file or
    is missing stops the walk. *)
Fixpoint first_obstacle (f : filesystem) (name : string) (parents : list path)
  : option exn :=
  match parents with
  | [] => None
  | q :: rest =>
      if is_anchor q then first_obstacle f name rest
      else if is_file f q then Some (NotADirectoryError name)
      else if is_dir f q then first_obstacle f name rest
      else Some (FileNotFoundError name)
  end.

(** The name ends with a slash or with [/.]: what it names has to be a
    directory. *)
Definition must_be_directory (name : string) : bool :=
  String.eqb (Py.basename name) "" || String.eqb (Py.basename name) ".".


(** [open(name, "rb")] and reading to the end: the bytes, or the
    exception.  The name is the raw string, walked component by
    component; permissions and symbolic links are not modelled. *)
Definition open_rb (f : filesystem) (name : string) : string + exn :=
  if Py.mem_char zero name then inr (ValueError "embedded null byte")
  else if String.eqb name "" then inr (FileNotFoundError name)
  else
    let p := parse_path name in
    match first_obstacle f name (proper_prefixes p) with
    | Some e => inr e
    | None =>
        if is_anchor p then inr (IsADirectoryError name)
        else match file_content f p with
             | Some bytes =>
                 if must_be_directory name then inr (NotADirectoryError name)
                 else inl bytes
             | None =>
                 if is_dir f p then inr (IsADirectoryError name)
                 else inr (FileNotFoundError name)
             end
    end.

Definition read_binary (name : string) : M string :=
  f <- get_fs ;;
  match open_rb f name with
  | inl bytes => ret bytes
  | inr e => raise e
  end.

(** [now.strftime("%Y%m%d_%H%M%S")]. *)
Definition pad2 (n : Z) : string :=
  if n <? 10 then "0" ++ Py.str_int n else Py.str_int n.

Definition pad4 (n : Z) : string :=
  if n <? 10 then "000" ++ Py.str_int n
  else if n <? 100 then "00" ++ Py.str_int n
  else if n <? 1000 then "0" ++ Py.str_int n
  else Py.str_int n.

Definition strftime_stamp (d : datetime) : string :=
  pad4 (year d) ++ pad2 (month d) ++ pad2 (day d) ++ "_" ++
  pad2 (hour d) ++ pad2 (minute d) ++ pad2 (second d).

(** ** Small Python operations inside the monad *)

(** [d[k]] where [d] may be [None]. *)
Definition subscript (k : string) (d : option (dict string)) : M string :=
  match d with
  | None => raise (TypeError "'NoneType' object is not subscriptable")
  | Some kv =>
      match dict_get k kv with
      | Some v => ret v
      | None => raise (KeyError k)
      end
  end.

(** [v.get(k)] on a decoded JSON value: only a dict has [get]. *)
Definition json_get (k : string) (v : json) : M json :=
  match v with
  | JObj fields =>
      ret (match dict_get k fields with Some x => x | None => JNull end)
  | _ => raise (AttributeError "object has no attribute 'get'")
  end.

(** [l[0]]. *)
Definition first_item {A} (l : list A) : M A :=
  match l with
  | x :: _ => ret x
  | [] => raise IndexError
  end.

(** [response.raise_for_status()]: 4xx and 5xx raise [HTTPError]. *)
Definition raise_for_status (r : response) : M unit :=
  if (400 <=? status_code r) && (status_code r <? 500) then
    raise (RequestException HTTPError
             (Py.str_int (status_code r) ++ " Client Error: " ++ reason r
              ++ " for url: " ++ resp_url r))
  else if (500 <=? status_code r) && (status_code r <? 600) then
    raise (RequestException HTTPError
             (Py.str_int (status_code r) ++ " Server Error: " ++ reason r
              ++ " for url: " ++ resp_url r))
  else ret tt.

(** [response.json()]. *)
Definition response_json (r : response) : M json :=
  match body r with
  | inl j => ret j
  | inr msg => raise (RequestException JSONDecodeError msg)
  end.

(** The clause [except requests.RequestException as e]. *)
Definition on_request_exception {A} (h : string -> M A) (e : exn) : option (M A) :=
  match e with
  | RequestException _ msg => Some (h msg)
  | _ => None
  end.

(** ** The client *)

Section Client.

Variable E : env.

(** [f"{v}"]. *)
Definition format_value (v : json) : string :=
  match v with
  | JNull => "None"
  | JBool true => "True"
  | JBool false => "False"
  | JInt n => Py.str_int n
  | JStr s => s
  | _ => repr_container E v
  end.

(** One call of [requests.get/post/delete]: the request is recorded, and
    the library either raises or returns the site's response. *)
Definition send (r : request) : M response :=
  fun s =>
    let s' := mkState (self s) (sent s ++ [r])%list (prompts s) (fs s) in
    match server E (sent s) r with
    | NetFailure msg => (Raise (RequestException TransportError msg), s')
    | NetReply resp => (Return resp, s')
    end.

(** [send], then [raise_for_status()], then [return response.json()]. *)
Definition fetch (r : request) : M json :=
  response <- send r ;;
  raise_for_status response ;;;
  response_json response.

(** *** Construction *)

Fixpoint check_required (items : list (string * option string)) : M unit :=
  match items with
  | [] => ret tt
  | (key, value) :: rest =>
      if truthy_str value then check_required rest
      else raise (ValueError ("Konfigurasi " ++ key ++ " tidak ditemukan di .env"))
  end.

Definition _validate_config : M unit :=
  m <- get_self ;;
  check_required
    [("WORDPRESS_URL", Some (site_url m));
     ("WORDPRESS_USERNAME", username m);
     ("WORDPRESS_PASSWORD", password m);
     ("GEMINI_API_KEY", gemini_api_key m)].

Definition _configure_gemini : M unit :=
  m <- get_self ;;
  match genai_setup E (gemini_api_key m) "gemini-1.5-flash" with
  | Some msg => raise (ServiceError msg)
  | None =>
      put_self (mkManager (site_url m) (api_url m) (jwt_url m) (username m)
                  (password m) (gemini_api_key m) (token m) (headers m)
                  (Some "gemini-1.5-flash"))
  end.

Definition authenticate : M unit :=
  try_except
    (m <- get_self ;;
     let payload :=
       JObj [("username", str_arg (username m)); ("password", str_arg (password m))] in
     response <- send (mkRequest POST (jwt_url m) None (JsonBody payload) 10) ;;
     raise_for_status response ;;;
     decoded <- response_json response ;;
     tok <- json_get "token" decoded ;;
     put_self (mkManager (site_url m) (api_url m) (jwt_url m) (username m)
                 (password m) (gemini_api_key m) tok
                 (Some [("Authorization", "Bearer " ++ format_value tok);
                        ("Content-Type", "application/json")])
                 (gemini_model m)))
    (on_request_exception
       (fun msg => raise (PlainException ("Autentikasi gagal: " ++ msg)))).

Definition __init__ : M unit :=
  m <- get_self ;;
  url <- match getenv E "WORDPRESS_URL" with
         | Some u => ret (Py.rstrip_chars "/" u)
         | None => raise (AttributeError "'NoneType' object has no attribute 'rstrip'")
         end ;;
  put_self (mkManager url
              (url ++ "/wp-json/wp/v2")
              (url ++ "/wp-json/jwt-auth/v1/token")
              (getenv E "WORDPRESS_USERNAME")
              (getenv E "WORDPRESS_PASSWORD")
              (getenv E "GEMINI_API_KEY")
              JNull None (gemini_model m)) ;;;
  _validate_config ;;;
  authenticate ;;;
  _configure_gemini.

(** *** Themes and menus *)

Definition list_themes : M json :=
  m <- get_self ;;
  fetch (mkRequest GET (site_url m ++ "/wp-json/wp/v2/themes") (headers m) NoBody 10).

Definition activate_theme (theme_slug : string) : M json :=
  m <- get_self ;;
  fetch (mkRequest POST (site_url m ++ "/wp-json/wp/v2/settings") (headers m)
           (JsonBody (JObj [("theme", JStr theme_slug)])) 10).

Definition update_menu (menu_id : Z) (items : list json) : M json :=
  m <- get_self ;;
  fetch (mkRequest POST (api_url m ++ "/menus/" ++ Py.str_int menu_id) (headers m)
           (JsonBody (JObj [("items", JArr items)])) 10).

(** *** Posts and pages *)

Definition create_post_data (title content : string) (categories : option (list Z))
    (featured_image_id : option Z) (status post_type : string) : dict json :=
  let data := [("title", JStr title); ("content", JStr content);
               ("status", JStr status); ("type", JStr post_type)] in
  let data := if truthy_list categories
              then dict_set "categories" (ids_arg categories) data else data in
  let data := if truthy_int featured_image_id
              then dict_set "featured_media" (int_arg featured_image_id) data else data in
  data.

Definition create_post (title content : string) (categories : option (list Z))
    (featured_image_id : option Z) (status post_type : string) : M json :=
  m <- get_self ;;
  let data := create_post_data title content categories featured_image_id status post_type in
  fetch (mkRequest POST (api_url m ++ "/" ++ post_type ++ "s") (headers m)
           (JsonBody (JObj data)) 10).

Definition update_post_data (title content : option string)
    (categories : option (list Z)) (featured_image_id : option Z) : dict json :=
  let data := [] in
  let data := if truthy_str title then dict_set "title" (str_arg title) data else data in
  let data := if truthy_str content then dict_set "content" (str_arg content) data else data in
  let data := if truthy_list categories
              then dict_set "categories" (ids_arg categories) data else data in
  let data := if truthy_int featured_image_id
              then dict_set "featured_media" (int_arg featured_image_id) data else data in
  data.

Definition update_post (post_id : Z) (post_type : string) (title content : option string)
    (categories : option (list Z)) (featured_image_id : option Z) : M json :=
  m <- get_self ;;
  let data := update_post_data title content categories featured_image_id in
  fetch (mkRequest POST
           (api_url m ++ "/" ++ post_type ++ "s/" ++ Py.str_int post_id) (headers m)
           (JsonBody (JObj data)) 10).

Definition delete_post (post_id : Z) (post_type : string) : M json :=
  m <- get_self ;;
  fetch (mkRequest DELETE
           (api_url m ++ "/" ++ post_type ++ "s/" ++ Py.str_int post_id) (headers m)
           NoBody 10).

(** *** Media *)

Definition upload_media (file_path alt_text description : string) : M json :=
  m <- get_self ;;
  let url := api_url m ++ "/media" in
  authorization <- subscript "Authorization" (headers m) ;;
  let hdrs := [("Authorization", authorization)] in
  file <- read_binary file_path ;;
  let files := [("file", (Py.basename file_path, file))] in
  let data := [("alt_text", alt_text); ("description", description)] in
  fetch (mkRequest POST url (Some hdrs) (Multipart files data) 15).

(** *** Users *)

Definition create_user (name email pass role : string) : M json :=
  m <- get_self ;;
  let data := [("username", JStr name); ("email", JStr email);
               ("password", JStr pass); ("roles", JArr [JStr role])] in
  fetch (mkRequest POST (api_url m ++ "/users") (headers m) (JsonBody (JObj data)) 10).

Definition update_user_data (email role : option string) : dict json :=
  let data := [] in
  let data := if truthy_str email then dict_set "email" (str_arg email) data else data in
  let data := if truthy_str role then dict_set "roles" (JArr [str_arg role]) data else data in
  data.

Definition update_user (user_id : Z) (email role : option string) : M json :=
  m <- get_self ;;
  fetch (mkRequest POST (api_url m ++ "/users/" ++ Py.str_int user_id) (headers m)
           (JsonBody (JObj (update_user_data email role))) 10).

Definition delete_user_url (base : string) (user_id : Z) (reassign : option Z) : string :=
  let url := base ++ "/users/" ++ Py.str_int user_id in
  if truthy_int reassign then url ++ "?reassign=" ++ format_value (int_arg reassign)
  else url.

Definition delete_user (user_id : Z) (reassign : option Z) : M json :=
  m <- get_self ;;
  fetch (mkRequest DELETE (delete_user_url (api_url m) user_id reassign) (headers m)
           NoBody 10).

(** *** Backup *)

Definition backup_text : string :=
  "Simulasi backup WordPress. Gunakan plugin seperti UpdraftPlus untuk backup nyata.".

Definition backup_name (d : datetime) : string :=
  "backup_" ++ strftime_stamp d ++ ".zip".

Definition backup_site (backup_path : string) : M string :=
  let backup_dir := parse_path backup_path in
  mkdir_parents backup_dir ;;;
  let backup_file := path_join backup_dir (backup_name (now E)) in
  write_text backup_file backup_text ;;;
  ret (path_str backup_file).

(** *** Article generation *)

Definition length_map : dict Z := [("short", 200); ("medium", 500); ("long", 1000)].

(** [length_map.get(length, 500)]. *)
Definition word_count (length : string) : Z :=
  match dict_get length length_map with
  | Some n => n
  | None => 500
  end.

Definition article_prompt (topic : string) (words : Z) : string :=
  "Buat artikel dalam bahasa Indonesia tentang '" ++ topic
  ++ "' dengan panjang sekitar " ++ Py.str_int words ++ " kata. "
  ++ "Gunakan gaya penulisan yang informatif dan menarik, cocok untuk blog WordPress. "
  ++ "Sertakan judul yang relevan dan konten yang terstruktur dengan paragraf yang jelas.".

(** [self.gemini_model.generate_content(prompt).text]. *)
Definition generate_content (prompt : string) : M string :=
  fun s =>
    match gemini_model (self s) with
    | None =>
        (Raise (AttributeError "'WordPressManager' object has no attribute 'gemini_model'"), s)
    | Some model =>
        let s' := mkState (self s) (sent s) (prompts s ++ [prompt])%list (fs s) in
        match genai_generate E model (prompts s) prompt with
        | inl text => (Return text, s')
        | inr msg => (Raise (ServiceError msg), s')
        end
    end.

Definition newline : ascii := "010"%char.

(** [s.strip()] and [s.title()]. *)
Definition str_strip (s : string) : string :=
  if all_chars is_ascii s then Py.strip s else unicode_strip E s.

Definition str_title (s : string) : string :=
  if all_chars is_ascii s then Py.title s else unicode_title E s.

Definition article_of (topic content : string) (lines : list string) (line0 : string)
  : dict string :=
  let title :=
    if Py.startswith "#" line0 then str_strip (Py.strip_chars "# " line0)
    else str_title topic in
  let article_content :=
    if Py.startswith "#" line0
    then str_strip (Py.join (String newline "") (tl lines))
    else content in
  [("title", title); ("content", article_content)].

Definition generate_article_with_gemini (topic length : string) : M (dict string) :=
  let prompt := article_prompt topic (word_count length) in
  content <- generate_content prompt ;;
  let lines := Py.split newline content in
  line0 <- first_item lines ;;
  ret (article_of topic content lines line0).

(** *** A driver: any sequence of calls on the constructed client *)

Inductive call : Type :=
| ListThemes
| ActivateTheme (theme_slug : string)
| UpdateMenu (menu_id : Z) (items : list json)
| CreatePost (title content : string) (categories : option (list Z))
             (featured_image_id : option Z) (status post_type : string)
| UpdatePost (post_id : Z) (post_type : string) (title content : option string)
             (categories : option (list Z)) (featured_image_id : option Z)
| DeletePost (post_id : Z) (post_type : string)
| UploadMedia (file_path alt_text description : string)
| CreateUser (name email pass role : string)
| UpdateUser (user_id : Z) (email role : option string)
| DeleteUser (user_id : Z) (reassign : option Z)
| BackupSite (backup_path : string)
| GenerateArticle (topic length : string).

Definition discard {A} (m : M A) : M unit := m ;;; ret tt.

Definition perform (c : call) : M unit :=
  match c with
  | ListThemes => discard list_themes
  | ActivateTheme t => discard (activate_theme t)
  | UpdateMenu i items => discard (update_menu i items)
  | CreatePost t c cats f st ty => discard (create_post t c cats f st ty)
  | UpdatePost i ty t c cats f => discard (update_post i ty t c cats f)
  | DeletePost i ty => discard (delete_post i ty)
  | UploadMedia p a d => discard (upload_media p a d)
  | CreateUser n e p r => discard (create_user n e p r)
  | UpdateUser i e r => discard (update_user i e r)
  | DeleteUser i r => discard (delete_user i r)
  | BackupSite p => discard (backup_site p)
  | GenerateArticle t l => discard (generate_article_with_gemini t l)
  end.

(** The state after a sequence of calls, whether each returned or raised
    (the caller may catch what a call raises and go on). *)
Fixpoint run_calls (cs : list call) (s : state) : state :=
  match cs with
  | [] => s
  | c :: cs' => run_calls cs' (snd (perform c s))
  end.

End Client.

(** A fresh object, before [__init__] has assigned anything. *)
Definition blank : manager :=
  mkManager "" "" "" None None None JNull None None.

(** [WordPressManager()] in a world with the given history and files: the
    outcome of [__init__] on a fresh object, and the state it leaves. *)
Definition WordPressManager (E : env) (requests0 : list request)
    (prompts0 : list string) (fs0 : filesystem) : outcome unit * state :=
  __init__ E (mkState blank requests0 prompts0 fs0).

(** The requests a computation adds to those already sent. *)
Definition new_requests (before after : state) : list request :=
  skipn (List.length (sent before)) (sent after).

Definition new_prompts (before after : state) : list string :=
  skipn (List.length (prompts before)) (prompts after).

Definition body_fields (r : request) : option (list string) :=
  match req_body r with
  | JsonBody (JObj data) => Some (dict_keys data)
  | _ => None
  end.

Definition is_multipart (r : request) : bool :=
  match req_body r with
  | Multipart _ _ => true
  | _ => false
  end.

(** ** A pattern for the backup file's name *)

Definition is_digit (c : ascii) : bool :=
  let n := nat_of_ascii c in ((48 <=? n) && (n <=? 57))%nat.

(** Consume exactly [n] decimal digits. *)
Fixpoint take_digits (n : nat) (s : string) : option string :=
  match n with
  | O => Some s
  | S n' =>
      match s with
      | String c s' => if is_digit c then take_digits n' s' else None
      | EmptyString => None
      end
  end.


Definition and_then {A B} (o : option A) (f : A -> option B) : option B :=
  match o with Some a => f a | None => None end.


(** ** Sample worlds *)

Definition fs_empty : filesystem := mkFs (fun _ => false) (fun _ => None).

(** A site that answers every request with [200 OK] and the body [j]. *)
Definition always_ok (j : json) (_ : list request) (r : request) : net_result :=
  NetReply (mkResponse 200 "OK" (req_url r) (inl j)).

(** A world given by its environment variables, its site and the text the
    AI service answers with. *)
Definition world (vars : dict string) (site : list request -> request -> net_result)
    (answer : string) : env :=
  mkEnv (fun k => dict_get k vars) site (fun _ _ => None) (fun _ _ _ => inl answer)
        (mkDatetime 2026 11 4 9 5 0) (fun _ => "") (fun s => s) (fun s => s).

Definition full_config : dict string :=
  [("WORDPRESS_URL", "https://blog.example/");
   ("WORDPRESS_USERNAME", "admin");
   ("WORDPRESS_PASSWORD", "s3cret");
   ("GEMINI_API_KEY", "key-123")].

(** The same configuration without [WORDPRESS_URL]. *)
Definition config_without_url : dict string := tl full_config.

Definition good_world : env :=
  world full_config (always_ok (JObj [("token", JStr "abc.def.ghi")])) "Teks.".

(** The site accepts the credentials but its answer carries no token. *)
Definition tokenless_world : env :=
  world full_config (always_ok (JObj [("user_email", JStr "admin@blog.example")])) "Teks.".

Definition heading_answer : string :=
  "# Belajar C#" ++ String newline (String newline "Isi artikel.").

Definition heading_world : env :=
  world full_config (always_ok (JObj [("token", JStr "abc.def.ghi")])) heading_answer.

(** The state once [WordPressManager()] has returned in [good_world]. *)
Definition good_state : state :=
  snd (WordPressManager good_world [] [] fs_empty).

Definition heading_state : state :=
  snd (WordPressManager heading_world [] [] fs_empty).

(** [good_state] with one image on disk. *)
Definition image_state : state :=
  mkState (self good_state) (sent good_state) (prompts good_state)
    (mkFs (fun p => path_eqb p ["img"])
          (fun p => if path_eqb p ["img"; "a.jpg"] then Some "JFIF" else None)).

(** ** Vocabulary of the properties *)

(** The calls that go through [requests] with a JSON or empty body. *)
Definition json_call (c : call) : bool :=
  match c with
  | UploadMedia _ _ _ | BackupSite _ | GenerateArticle _ _ => false
  | _ => true
  end.

Definition carries (h : option (dict string)) (r : request) : Prop :=
  is_multipart r = false -> req_headers r = h.

Definition required_keys : list string :=
  ["WORDPRESS_URL"; "WORDPRESS_USERNAME"; "WORDPRESS_PASSWORD"; "GEMINI_API_KEY"].

(** The configuration value [k] is missing, or is the empty string. *)
Definition missing_or_empty (E : env) (k : string) : Prop :=
  getenv E k = None \/ getenv E k = Some "".

(** The one request [authenticate] sends. *)
Definition token_request (m : manager) : request :=
  mkRequest POST (jwt_url m) None
    (JsonBody (JObj [("username", str_arg (username m));
                     ("password", str_arg (password m))])) 10.

(** The statuses [raise_for_status] rejects: 400 to 599. *)
Definition http_error (r : response) : bool :=
  (400 <=? status_code r) && (status_code r <? 600).

(** [token_field fields] is [body.get("token")]. *)
Definition token_field (fields : dict json) : json :=
  match dict_get "token" fields with
  | Some x => x
  | None => JNull
  end.

(** Decide whether a field is among keys given by nested conditionals. *)
Ltac absent_field :=
  repeat match goal with
         | |- context [if ?b then _ else _] => destruct b
         end;
  simpl; intuition discriminate.

(** [datetime.now()] in the years that print with four digits. *)
Definition valid_datetime (d : datetime) : Prop :=
  1000 <= year d <= 9999 /\ 1 <= month d <= 12 /\ 1 <= day d <= 31
  /\ 0 <= hour d <= 23 /\ 0 <= minute d <= 59 /\ 0 <= second d <= 59.

(** [s] is exactly [n] decimal digits. *)
Definition digits_exactly (n : nat) (s : string) : bool :=
  match take_digits n s with
  | Some EmptyString => true
  | _ => false
  end.

Definition not_slash (c : ascii) : bool := negb (Ascii.eqb c "/").

(** The integers from [lo] up to, not including, [lo + len]. *)
Definition z_range (lo len : Z) : list Z :=
  map (fun k => lo + Z.of_nat k) (seq 0 (Z.to_nat len)).

(** ** The example driver ([main.py]) *)

(** [v[k]] for a string key [k] on a decoded JSON value: only a dict can
    be indexed by a string. *)
Definition json_item (k : string) (v : json) : M json :=
  match v with
  | JObj fields =>
      match dict_get k fields with
      | Some x => ret x
      | None => raise (KeyError k)
      end
  | JArr _ => raise (TypeError "list indices must be integers or slices, not str")
  | JStr _ => raise (TypeError "string indices must be integers")
  | _ => raise (TypeError "object is not subscriptable")
  end.

(** [d[k]] on a dict. *)
Definition dict_item {V} (k : string) (d : dict V) : M V :=
  match dict_get k d with
  | Some v => ret v
  | None => raise (KeyError k)
  end.

(** [[x[k] for x in items]]. *)
Fixpoint each_item (k : string) (items : list json) : M (list json) :=
  match items with
  | [] => ret []
  | x :: rest =>
      v <- json_item k x ;;
      vs <- each_item k rest ;;
      ret (v :: vs)
  end.

(** [[theme['slug'] for theme in themes]]: a list gives its items, a dict
    its keys, a string its characters; nothing else can be iterated. *)
Definition theme_slugs (themes : json) : M (list json) :=
  match themes with
  | JArr items => each_item "slug" items
  | JObj fields => each_item "slug" (map (fun kv => JStr (fst kv)) fields)
  | JStr s =>
      each_item "slug" (map (fun c => JStr (String c "")) (list_ascii_of_string s))
  | _ => raise (TypeError "object is not iterable")
  end.

(** [delete_post] and [delete_user] as the driver calls them, with the id
    the site returned, whatever its JSON type: the URL holds its text. *)
Definition delete_post_dyn (E : env) (post_id : json) (post_type : string) : M json :=
  m <- get_self ;;
  fetch E (mkRequest DELETE
             (api_url m ++ "/" ++ post_type ++ "s/" ++ format_value E post_id)
             (headers m) NoBody 10).

Definition delete_user_dyn (E : env) (user_id : json) (reassign : option Z) : M json :=
  m <- get_self ;;
  let url := api_url m ++ "/users/" ++ format_value E user_id in
  let url := if truthy_int reassign
             then url ++ "?reassign=" ++ format_value E (int_arg reassign)
             else url in
  fetch E (mkRequest DELETE url (headers m) NoBody 10).

(** The clause [except Exception].  Every exception of the model is an
    [Exception]; the interrupts the clause lets through
    ([KeyboardInterrupt], [SystemExit]) come from outside the program and
    are not in the model. *)
Definition on_exception {A} (h : M A) (_ : exn) : option (M A) := Some h.

(** [main()].  The call [wp.update_post(..., status="publish")] names a
    parameter [update_post] does not have: once its arguments are
    evaluated the call raises [TypeError] without entering the method. *)
Definition main (E : env) : M unit :=
  try_except
    (put_self blank ;;;
     __init__ E ;;;
     themes <- list_themes E ;;
     _ <- theme_slugs themes ;;
     article <- generate_article_with_gemini E "Manfaat Teknologi AI" "medium" ;;
     title <- dict_item "title" article ;;
     content <- dict_item "content" article ;;
     post <- create_post E title content (Some [1]) None "draft" "post" ;;
     _ <- json_item "id" post ;;
     media <- upload_media E "path/to/image.jpg" "Gambar contoh" "Deskripsi gambar" ;;
     _ <- json_item "id" media ;;
     _ <- json_item "id" post ;;
     _ <- json_item "id" media ;;
     _ <- (raise (TypeError "update_post() got an unexpected keyword argument 'status'")
           : M json) ;;
     _ <- json_item "id" post ;;
     user <- create_user E "pengguna_baru" "baru@example.com" "securepassword123"
               "editor" ;;
     _ <- json_item "id" user ;;
     _ <- backup_site E "backups" ;;
     post_id <- json_item "id" post ;;
     _ <- delete_post_dyn E post_id "post" ;;
     _ <- json_item "id" post ;;
     user_id <- json_item "id" user ;;
     _ <- delete_user_dyn E user_id (Some 1) ;;
     _ <- json_item "id" user ;;
     ret tt)
    (on_exception (ret tt)).

(** ** Vocabulary of the further properties *)

(** The request [create_user] sends is the one whose body has these
    fields. *)
Definition creates_user (r : request) : bool :=
  match body_fields r with
  | Some ["username"; "email"; "password"; "roles"] => true
  | _ => false
  end.

Definition is_delete (r : request) : bool :=
  match req_method r with
  | DELETE => true
  | _ => false
  end.

(** From [s] to [s']: the files are as they were, at most [n] requests
    were sent, and each of them satisfies [P]. *)
Definition sends_within (P : request -> Prop) (n : nat) (s s' : state) : Prop :=
  fs s' = fs s
  /\ exists l, sent s' = (sent s ++ l)%list
               /\ Forall P l /\ (List.length l <= n)%nat.

(** Neither a deletion nor the creation of a user. *)
Definition harmless (r : request) : Prop :=
  is_delete r = false /\ creates_user r = false.

(** The timeout each kind of request is sent with. *)
Definition expected_timeout (r : request) : Z :=
  if is_multipart r then 15 else 10.

(** The object as [__init__] leaves it before validation, for the site
    URL [u] read from the environment. *)
Definition configured (E : env) (u : string) (m : manager) : manager :=
  mkManager (Py.rstrip_chars "/" u)
    (Py.rstrip_chars "/" u ++ "/wp-json/wp/v2")
    (Py.rstrip_chars "/" u ++ "/wp-json/jwt-auth/v1/token")
    (getenv E "WORDPRESS_USERNAME") (getenv E "WORDPRESS_PASSWORD")
    (getenv E "GEMINI_API_KEY") JNull None (gemini_model m).

(** All four configuration values are present and not empty (the site URL
    once its trailing slashes are removed). *)
Definition complete_config (E : env) (u : string) : Prop :=
  getenv E "WORDPRESS_URL" = Some u
  /\ truthy_str (Some (Py.rstrip_chars "/" u)) = true
  /\ truthy_str (getenv E "WORDPRESS_USERNAME") = true
  /\ truthy_str (getenv E "WORDPRESS_PASSWORD") = true
  /\ truthy_str (getenv E "GEMINI_API_KEY") = true.

(** [s] does not end with a character satisfying [p]. *)
Fixpoint ends_clean (p : ascii -> bool) (s : string) : bool :=
  match s with
  | EmptyString => true
  | String c EmptyString => negb (p c)
  | String _ s' => ends_clean p s'
  end.

(** [s] does not start with a character satisfying [p]. *)
Definition starts_clean (p : ascii -> bool) (s : string) : bool :=
  match s with
  | EmptyString => true
  | String c _ => negb (p c)
  end.

(** The calls that delete something on the site. *)
Definition deleting (c : call) : bool :=
  match c with
  | DeletePost _ _ | DeleteUser _ _ => true
  | _ => false
  end.

(** The value [_validate_config] tests for the key [k], the site URL read
    from the environment being [u]. *)
Definition config_value (E : env) (u : string) (k : string) : option string :=
  if String.eqb k "WORDPRESS_URL" then Some (Py.rstrip_chars "/" u) else getenv E k.

Definition is_slash (c : ascii) : bool := Ascii.eqb c "/".

(** A site for the driver: a list of themes for a GET, and for anything
    else a record with a token and an id. *)
Definition demo_site (_ : list request) (r : request) : net_result :=
  NetReply (mkResponse 200 "OK" (req_url r)
              (inl (match req_method r with
                    | GET => JArr [JObj [("slug", JStr "twentytwentyfive")]]
                    | _ => JObj [("token", JStr "abc.def.ghi"); ("id", JInt 12)]
                    end))).

Definition demo_world : env := world full_config demo_site "Teks.".

(** The driver's image is on disk and nothing else. *)
Definition demo_state : state :=
  mkState blank [] []
    (mkFs (fun p => path_eqb p ["path"] || path_eqb p ["path"; "to"])
          (fun p => if path_eqb p ["path"; "to"; "image.jpg"] then Some "JFIF" else None)).

(** * Properties *)

(** ** The built-ins on sample values *)

Example str_int_5 : Py.str_int 5 = "5". Proof. reflexivity. Qed.
Example str_int_neg : Py.str_int (-12) = "-12". Proof. reflexivity. Qed.
Example str_int_0 : Py.str_int 0 = "0". Proof. reflexivity. Qed.
Example rstrip_url : Py.rstrip_chars "/" "http://x/y//" = "http://x/y". Proof. reflexivity. Qed.
Example strip_heading : Py.strip (Py.strip_chars "# " "## Judul Baru #") = "Judul Baru". Proof. reflexivity. Qed.
Example split_lines : Py.split "010" ("a" ++ String "010" "" ++ String "010" "b") = ["a"; ""; "b"].
Proof. reflexivity. Qed.
Example title_ai : Py.title "manfaat teknologi AI" = "Manfaat Teknologi Ai". Proof. reflexivity. Qed.
Example basename_img : Py.basename "path/to/image.jpg" = "image.jpg". Proof. reflexivity. Qed.

(** ** What a call leaves behind *)

Lemma skipn_length_app {A} (a l : list A) : skipn (List.length a) (a ++ l)%list = l.
Proof.
  induction a as [|x a IH]; simpl; [reflexivity | exact IH].
Qed.

Lemma new_requests_app (s s' : state) (l : list request) :
  sent s' = (sent s ++ l)%list -> new_requests s s' = l.
Proof.
  intros H. unfold new_requests. rewrite H. apply skipn_length_app.
Qed.

(** A JSON call hands exactly one request to the HTTP library and touches
    nothing else, whatever comes back. *)
Lemma fetch_state (E : env) (r : request) (s : state) :
  snd (fetch E r s) = mkState (self s) (sent s ++ [r])%list (prompts s) (fs s).
Proof.
  unfold fetch, bind, send.
  destruct (server E (sent s) r) as [msg|resp]; [reflexivity|].
  unfold raise_for_status.
  destruct ((400 <=? status_code resp) && (status_code resp <? 500)); [reflexivity|].
  destruct ((500 <=? status_code resp) && (status_code resp <? 600)); [reflexivity|].
  unfold ret, response_json. destruct (body resp); reflexivity.
Qed.

Lemma create_post_state (E : env) (s : state) title content categories
    featured_image_id status post_type :
  snd (create_post E title content categories featured_image_id status post_type s)
  = mkState (self s)
      (sent s ++
       [mkRequest POST (api_url (self s) ++ "/" ++ post_type ++ "s") (headers (self s))
          (JsonBody (JObj (create_post_data title content categories
                             featured_image_id status post_type))) 10])%list
      (prompts s) (fs s).
Proof. apply fetch_state. Qed.

Lemma update_post_state (E : env) (s : state) post_id post_type title content
    categories featured_image_id :
  snd (update_post E post_id post_type title content categories featured_image_id s)
  = mkState (self s)
      (sent s ++
       [mkRequest POST
          (api_url (self s) ++ "/" ++ post_type ++ "s/" ++ Py.str_int post_id)
          (headers (self s))
          (JsonBody (JObj (update_post_data title content categories featured_image_id)))
          10])%list
      (prompts s) (fs s).
Proof. apply fetch_state. Qed.

Lemma delete_user_state (E : env) (s : state) user_id reassign :
  snd (delete_user E user_id reassign s)
  = mkState (self s)
      (sent s ++
       [mkRequest DELETE (delete_user_url E (api_url (self s)) user_id reassign)
          (headers (self s)) NoBody 10])%list
      (prompts s) (fs s).
Proof. apply fetch_state. Qed.

(** ** Request bodies of [create_post] and [update_post] *)

(** C3.  [create_post] called with a title and a content only, the
    optional [categories] and [featured_image_id] left at [None] (and
    whatever [status] and [post_type] are, the defaults [publish] and [post]
    included), sends one request whose JSON body has exactly the fields
    [title], [content], [status] and [type], in particular neither
    [categories] nor [featured_media], not even with a null value. *)
Theorem C3_create_post_minimal_body :
  forall (E : env) (s : state) (title content status post_type : string),
    let s' := snd (create_post E title content None None status post_type s) in
    exists r,
      new_requests s s' = [r]
      /\ req_body r = JsonBody (JObj [("title", JStr title); ("content", JStr content);
                                      ("status", JStr status); ("type", JStr post_type)])
      /\ body_fields r = Some ["title"; "content"; "status"; "type"].
Proof.
  intros E s title content status post_type s'.
  eexists. split.
  - apply new_requests_app. subst s'. rewrite create_post_state. reflexivity.
  - split; reflexivity.
Qed.

(** C4, as amended.  [update_post] called with a non-zero
    [featured_image_id] and no title, content or categories sends one
    request whose JSON body has the single field [featured_media], holding
    that id. *)
Theorem C4_update_post_featured_only :
  forall (E : env) (s : state) (post_id : Z) (post_type : string) (image : Z),
    image <> 0 ->
    let s' := snd (update_post E post_id post_type None None None (Some image) s) in
    exists r,
      new_requests s s' = [r]
      /\ req_body r = JsonBody (JObj [("featured_media", JInt image)])
      /\ body_fields r = Some ["featured_media"].
Proof.
  intros E s post_id post_type image Himage s'.
  eexists. split.
  - apply new_requests_app. subst s'. rewrite update_post_state. reflexivity.
  - unfold update_post_data, body_fields, truthy_int; simpl.
    apply Z.eqb_neq in Himage. rewrite Himage. simpl. split; reflexivity.
Qed.

Lemma C4_update_post_featured_only_witness :
  exists r,
    new_requests good_state
      (snd (update_post good_world 7 "post" None None None (Some 42) good_state)) = [r]
    /\ req_body r = JsonBody (JObj [("featured_media", JInt 42)])
    /\ body_fields r = Some ["featured_media"].
Proof.
  apply (C4_update_post_featured_only good_world good_state 7 "post" 42). lia.
Defined.

(** C4 fails as stated: with [featured_image_id=0] supplied and nothing
    else, the body sent is the empty object, not one holding
    [featured_media]. *)
Lemma C4_counterexample :
  map body_fields
    (new_requests good_state
       (snd (update_post good_world 7 "post" None None None (Some 0) good_state)))
  = [Some []]
  /\ Some (@nil string) <> Some ["featured_media"].
Proof. split; [reflexivity | discriminate]. Qed.

(** The fields of an [update_post] body are those of the truthy optional
    arguments, in the order the code tests them. *)
Lemma update_post_data_keys title content (categories : option (list Z)) featured_image_id :
  dict_keys (update_post_data title content categories featured_image_id)
  = ((if truthy_str title then ["title"] else [])
     ++ (if truthy_str content then ["content"] else [])
     ++ (if truthy_list categories then ["categories"] else [])
     ++ (if truthy_int featured_image_id then ["featured_media"] else []))%list.
Proof.
  unfold update_post_data.
  destruct (truthy_str title), (truthy_str content), (truthy_list categories),
    (truthy_int featured_image_id); reflexivity.
Qed.

Lemma create_post_data_keys title content (categories : option (list Z))
    featured_image_id status post_type :
  dict_keys (create_post_data title content categories featured_image_id status post_type)
  = (["title"; "content"; "status"; "type"]
     ++ (if truthy_list categories then ["categories"] else [])
     ++ (if truthy_int featured_image_id then ["featured_media"] else []))%list.
Proof.
  unfold create_post_data.
  destruct (truthy_list categories), (truthy_int featured_image_id); reflexivity.
Qed.

(** ** The URL of [delete_user] *)

(** C5, as amended.  [delete_user] sends one request.  With a non-zero
    [reassign] its URL is the user's URL with [?reassign=<value>] appended;
    with no [reassign] it is the user's URL with nothing appended. *)
Theorem C5_delete_user_query :
  forall (E : env) (s : state) (user_id : Z),
    let user_url := api_url (self s) ++ "/users/" ++ Py.str_int user_id in
    (forall n : Z, n <> 0 ->
       exists r,
         new_requests s (snd (delete_user E user_id (Some n) s)) = [r]
         /\ req_url r = user_url ++ "?reassign=" ++ Py.str_int n)
    /\ (exists r,
         new_requests s (snd (delete_user E user_id None s)) = [r]
         /\ req_url r = user_url).
Proof.
  intros E s user_id user_url. split.
  - intros n Hn. eexists. split.
    + apply new_requests_app. rewrite delete_user_state. reflexivity.
    + simpl. unfold delete_user_url, truthy_int.
      apply Z.eqb_neq in Hn. rewrite Hn. reflexivity.
  - eexists. split.
    + apply new_requests_app. rewrite delete_user_state. reflexivity.
    + reflexivity.
Qed.

Lemma C5_delete_user_query_witness :
  exists r,
    new_requests good_state (snd (delete_user good_world 7 (Some 5) good_state)) = [r]
    /\ req_url r = "https://blog.example/wp-json/wp/v2/users/7?reassign=5".
Proof.
  apply (proj1 (C5_delete_user_query good_world good_state 7) 5). lia.
Defined.

(** C5 fails as stated: with [reassign=0] supplied, the URL is the user's
    URL and carries no query string. *)
Lemma C5_counterexample :
  map req_url
    (new_requests good_state (snd (delete_user good_world 7 (Some 0) good_state)))
  = ["https://blog.example/wp-json/wp/v2/users/7"]
  /\ "https://blog.example/wp-json/wp/v2/users/7"
     <> "https://blog.example/wp-json/wp/v2/users/7?reassign=0".
Proof. split; [reflexivity | discriminate]. Qed.

(** ** Falsy optional arguments *)

(** C10.  An optional argument that is supplied but falsy is treated as
    absent.  [update_post] leaves out [title] for [title=""], [content] for
    [content=""], [categories] for [categories=[]] and [featured_media] for
    [featured_image_id=0]; [create_post] leaves out [categories] for
    [categories=[]] and [featured_media] for [featured_image_id=0];
    [delete_user] with [reassign=0] appends no query string. *)
Theorem C10_falsy_arguments_are_absent :
  forall (E : env) (s : state),
    (forall post_id post_type title content categories featured_image_id,
       exists r data,
         new_requests s
           (snd (update_post E post_id post_type title content categories
                   featured_image_id s)) = [r]
         /\ req_body r = JsonBody (JObj data)
         /\ (title = Some "" -> ~ In "title" (dict_keys data))
         /\ (content = Some "" -> ~ In "content" (dict_keys data))
         /\ (categories = Some [] -> ~ In "categories" (dict_keys data))
         /\ (featured_image_id = Some 0 -> ~ In "featured_media" (dict_keys data)))
    /\ (forall title content categories featured_image_id status post_type,
          exists r data,
            new_requests s
              (snd (create_post E title content categories featured_image_id
                      status post_type s)) = [r]
            /\ req_body r = JsonBody (JObj data)
            /\ (categories = Some [] -> ~ In "categories" (dict_keys data))
            /\ (featured_image_id = Some 0 -> ~ In "featured_media" (dict_keys data)))
    /\ (forall user_id,
          exists r,
            new_requests s (snd (delete_user E user_id (Some 0) s)) = [r]
            /\ req_url r = api_url (self s) ++ "/users/" ++ Py.str_int user_id).
Proof.
  intros E s. split; [|split].
  - intros post_id post_type title content categories fid.
    do 2 eexists. split.
    { apply new_requests_app. rewrite update_post_state. reflexivity. }
    split; [reflexivity|].
    rewrite update_post_data_keys.
    repeat split; intros ->; simpl; absent_field.
  - intros title content categories fid status post_type.
    do 2 eexists. split.
    { apply new_requests_app. rewrite create_post_state. reflexivity. }
    split; [reflexivity|].
    rewrite create_post_data_keys.
    repeat split; intros ->; simpl; absent_field.
  - intros user_id. eexists. split.
    { apply new_requests_app. rewrite delete_user_state. reflexivity. }
    reflexivity.
Qed.

Lemma C10_falsy_arguments_are_absent_witness :
  exists r data,
    new_requests good_state
      (snd (update_post good_world 7 "post" (Some "") (Some "Isi") (Some []) (Some 0)
              good_state)) = [r]
    /\ req_body r = JsonBody (JObj data)
    /\ dict_keys data = ["content"].
Proof.
  destruct (proj1 (C10_falsy_arguments_are_absent good_world good_state)
              7 "post" (Some "") (Some "Isi") (Some []) (Some 0))
    as (r & data & Hr & Hbody & Ht & _ & Hc & Hf).
  specialize (Ht eq_refl). specialize (Hc eq_refl). specialize (Hf eq_refl).
  exists r, data. split; [exact Hr|]. split; [exact Hbody|].
  vm_compute in Hr. injection Hr as <-. injection Hbody as <-. reflexivity.
Defined.

(** ** The session headers *)

Lemma discard_state {A} (m : M A) (s : state) : snd (discard m s) = snd (m s).
Proof.
  unfold discard, bind, ret. destruct (m s) as [[a|e] s']; reflexivity.
Qed.

(** What [upload_media] sends: one multipart request when the session has
    an [Authorization] header and the file can be read, nothing otherwise;
    the rest of the state is as it was. *)
Lemma upload_media_state (E : env) (s : state) file_path alt_text description :
  snd (upload_media E file_path alt_text description s)
  = mkState (self s)
      (sent s ++
       match and_then (headers (self s)) (dict_get "Authorization"),
             open_rb (fs s) file_path with
       | Some v, inl bytes =>
           [mkRequest POST (api_url (self s) ++ "/media") (Some [("Authorization", v)])
              (Multipart [("file", (Py.basename file_path, bytes))]
                 [("alt_text", alt_text); ("description", description)]) 15]
       | _, _ => []
       end)%list
      (prompts s) (fs s).
Proof.
  unfold upload_media, read_binary, subscript, bind, get_self, get_fs, and_then, ret, raise.
  destruct s as [m rs ps f]; simpl.
  destruct (headers m) as [h|]; simpl; [|now rewrite app_nil_r].
  destruct (dict_get "Authorization" h) as [v|]; simpl; [|now rewrite app_nil_r].
  destruct (open_rb f file_path) as [bytes|e]; simpl.
  - apply fetch_state.
  - now rewrite app_nil_r.
Qed.

(** C6.  Every request [upload_media] sends carries exactly one header,
    [Authorization], with the value the session headers hold for it; the
    session's [Content-Type] is not among the headers sent.  (And a request
    is sent whenever the session has that header and the file can be
    read.) *)
Theorem C6_upload_media_authorization_only :
  forall (E : env) (s : state) (file_path alt_text description : string),
    let s' := snd (upload_media E file_path alt_text description s) in
    (forall r, In r (new_requests s s') ->
       exists v h,
         and_then (headers (self s)) (dict_get "Authorization") = Some v
         /\ req_headers r = Some h
         /\ h = [("Authorization", v)]
         /\ dict_get "Content-Type" h = None)
    /\ (forall v bytes,
          and_then (headers (self s)) (dict_get "Authorization") = Some v ->
          open_rb (fs s) file_path = inl bytes ->
          exists r, new_requests s s' = [r] /\ is_multipart r = true).
Proof.
  intros E s file_path alt_text description s'.
  assert (Hnew : new_requests s s'
                 = match and_then (headers (self s)) (dict_get "Authorization"),
                         open_rb (fs s) file_path with
                   | Some v, inl bytes =>
                       [mkRequest POST (api_url (self s) ++ "/media")
                          (Some [("Authorization", v)])
                          (Multipart [("file", (Py.basename file_path, bytes))]
                             [("alt_text", alt_text); ("description", description)]) 15]
                   | _, _ => []
                   end).
  { apply new_requests_app. subst s'. rewrite upload_media_state. reflexivity. }
  rewrite Hnew. split.
  - intros r Hin.
    destruct (and_then (headers (self s)) (dict_get "Authorization")) as [v|];
      [|contradiction].
    destruct (open_rb (fs s) file_path) as [bytes|e]; [|contradiction].
    destruct Hin as [<-|[]]. exists v, [("Authorization", v)]. repeat split.
  - intros v bytes -> ->. eexists. split; reflexivity.
Qed.

Lemma C6_upload_media_authorization_only_witness :
  exists r,
    new_requests image_state
      (snd (upload_media good_world "img/a.jpg" "Gambar" "Deskripsi" image_state)) = [r]
    /\ req_headers r = Some [("Authorization", "Bearer abc.def.ghi")].
Proof.
  destruct (proj2 (C6_upload_media_authorization_only good_world image_state
                     "img/a.jpg" "Gambar" "Deskripsi")
              "Bearer abc.def.ghi" "JFIF" eq_refl eq_refl) as (r & Hr & _).
  exists r. split; [exact Hr|].
  destruct (proj1 (C6_upload_media_authorization_only good_world image_state
                     "img/a.jpg" "Gambar" "Deskripsi") r)
    as (v & h & Hv & Hh & -> & _).
  - rewrite Hr. left. reflexivity.
  - rewrite Hh. vm_compute in Hv. injection Hv as <-. reflexivity.
Defined.

Lemma backup_site_frame (E : env) (s : state) backup_path :
  let s' := snd (backup_site E backup_path s) in
  self s' = self s /\ sent s' = sent s /\ prompts s' = prompts s.
Proof.
  unfold backup_site, mkdir_parents, write_text, bind, get_fs, put_fs, raise, ret.
  destruct s as [m rs ps f]; simpl.
  destruct (find (is_file f) (prefixes (parse_path backup_path))); simpl; [auto|].
  match goal with |- context [if ?b then _ else _] => destruct b end; simpl; [auto|].
  match goal with |- context [if ?b then _ else _] => destruct b end; simpl; auto.
Qed.

Lemma generate_article_frame (E : env) (s : state) topic length :
  let s' := snd (generate_article_with_gemini E topic length s) in
  self s' = self s /\ sent s' = sent s.
Proof.
  unfold generate_article_with_gemini, generate_content, first_item, bind, ret, raise.
  destruct s as [m rs ps f]; simpl.
  destruct (gemini_model m) as [model|]; simpl; [|auto].
  destruct (genai_generate E model ps _) as [text|msg]; simpl; [|auto].
  destruct (Py.split newline text); simpl; auto.
Qed.

(** One call: the object is as it was, and what was sent, if not a
    multipart upload, carries the session headers. *)
Lemma perform_frame (E : env) (c : call) (s : state) :
  self (snd (perform E c s)) = self s
  /\ exists l,
       sent (snd (perform E c s)) = (sent s ++ l)%list
       /\ Forall (carries (headers (self s))) l
       /\ (json_call c = true ->
           exists r, l = [r] /\ req_headers r = headers (self s) /\ is_multipart r = false).
Proof.
  destruct c; unfold perform; rewrite discard_state;
    try (unfold list_themes, activate_theme, update_menu, create_post, update_post,
           delete_post, create_user, update_user, delete_user, bind, get_self;
         rewrite fetch_state; simpl; split; [reflexivity|];
         eexists; split; [reflexivity|];
         split; [repeat constructor | intros _; eexists; repeat split]).
  - rewrite upload_media_state; simpl. split; [reflexivity|].
    eexists; split; [reflexivity|]. split; [|discriminate].
    destruct (and_then _ _); [|constructor].
    destruct (open_rb _ _); constructor; [discriminate | constructor].
  - destruct (backup_site_frame E s backup_path) as (Hself & Hsent & _).
    split; [exact Hself|]. exists []. rewrite app_nil_r.
    split; [exact Hsent|]. split; [constructor | discriminate].
  - destruct (generate_article_frame E s topic length) as (Hself & Hsent).
    split; [exact Hself|]. exists []. rewrite app_nil_r.
    split; [exact Hsent|]. split; [constructor | discriminate].
Qed.

(** C9.  The session headers are an invariant of the client: after any
    sequence of theme, menu, post, media, user, backup and article calls
    the object, its header set included, is what it was; every request
    these calls sent that is not a multipart upload carries exactly that
    header set; and each JSON-based call does send one request, carrying
    it. *)
Theorem C9_session_headers_invariant :
  forall (E : env) (s : state),
    (forall cs,
       headers (self (run_calls E cs s)) = headers (self s)
       /\ Forall (carries (headers (self s))) (new_requests s (run_calls E cs s)))
    /\ (forall c, json_call c = true ->
          exists r,
            new_requests s (snd (perform E c s)) = [r]
            /\ req_headers r = headers (self s)).
Proof.
  intros E s. split.
  - intros cs.
    assert (H : self (run_calls E cs s) = self s
                /\ exists l, sent (run_calls E cs s) = (sent s ++ l)%list
                             /\ Forall (carries (headers (self s))) l).
    { revert s. induction cs as [|c cs IH]; intros s; simpl.
      - split; [reflexivity|]. exists []. rewrite app_nil_r. split; [reflexivity|constructor].
      - destruct (perform_frame E c s) as (Hself & l1 & Hsent1 & Hl1 & _).
        destruct (IH (snd (perform E c s))) as (Hself2 & l2 & Hsent2 & Hl2).
        split; [congruence|].
        exists (l1 ++ l2)%list. split.
        + rewrite Hsent2, Hsent1, app_assoc. reflexivity.
        + apply Forall_app. split; [exact Hl1|]. rewrite Hself in Hl2. exact Hl2. }
    destruct H as (Hself & l & Hsent & Hl). split; [now rewrite Hself|].
    rewrite (new_requests_app s _ l Hsent). exact Hl.
  - intros c Hc.
    destruct (perform_frame E c s) as (_ & l & Hsent & _ & Hone).
    destruct (Hone Hc) as (r & -> & Hh & _).
    exists r. split; [apply new_requests_app; exact Hsent | exact Hh].
Qed.

Lemma C9_session_headers_invariant_witness :
  exists r,
    new_requests good_state (snd (perform good_world ListThemes good_state)) = [r]
    /\ req_headers r = Some [("Authorization", "Bearer abc.def.ghi");
                             ("Content-Type", "application/json")].
Proof.
  destruct (proj2 (C9_session_headers_invariant good_world good_state)
              ListThemes eq_refl) as (r & Hr & Hh).
  exists r. split; [exact Hr | exact Hh].
Defined.

(** ** Construction *)

Lemma truthy_str_missing (o : option string) :
  o = None \/ o = Some "" -> truthy_str o = false.
Proof. intros [-> | ->]; reflexivity. Qed.

(** With [WORDPRESS_URL] present, a missing or empty value makes
    construction fail in [_validate_config], with the [ValueError] that
    names the first such value, before anything is sent. *)
Lemma init_value_error (E : env) rs ps f (u : string) :
  getenv E "WORDPRESS_URL" = Some u ->
  (exists k, In k required_keys /\ missing_or_empty E k) ->
  exists k m,
    In k required_keys
    /\ WordPressManager E rs ps f
       = (Raise (ValueError ("Konfigurasi " ++ k ++ " tidak ditemukan di .env")),
          mkState m rs ps f).
Proof.
  intros Hu (k & Hk & Hmiss).
  unfold WordPressManager, __init__, _validate_config, bind, get_self, put_self, ret.
  rewrite Hu. simpl.
  destruct (Py.rstrip_chars "/" u =? "")%string eqn:T1; simpl;
    [exists "WORDPRESS_URL"; eexists; split; [simpl; auto | reflexivity]|].
  destruct (truthy_str (getenv E "WORDPRESS_USERNAME")) eqn:T2;
    [|exists "WORDPRESS_USERNAME"; eexists; split; [simpl; auto | reflexivity]].
  destruct (truthy_str (getenv E "WORDPRESS_PASSWORD")) eqn:T3;
    [|exists "WORDPRESS_PASSWORD"; eexists; split; [simpl; auto | reflexivity]].
  destruct (truthy_str (getenv E "GEMINI_API_KEY")) eqn:T4;
    [|exists "GEMINI_API_KEY"; eexists; split; [simpl; auto | reflexivity]].
  exfalso.
  destruct Hk as [<-|[<-|[<-|[<-|[]]]]].
  - destruct Hmiss as [Hm|Hm]; rewrite Hu in Hm; [discriminate|].
    injection Hm as ->. discriminate T1.
  - rewrite (truthy_str_missing _ Hmiss) in T2. discriminate.
  - rewrite (truthy_str_missing _ Hmiss) in T3. discriminate.
  - rewrite (truthy_str_missing _ Hmiss) in T4. discriminate.
Qed.

(** [os.getenv("WORDPRESS_URL").rstrip("/")] on a missing variable. *)
Lemma init_without_url (E : env) rs ps f :
  getenv E "WORDPRESS_URL" = None ->
  WordPressManager E rs ps f
  = (Raise (AttributeError "'NoneType' object has no attribute 'rstrip'"),
     mkState blank rs ps f).
Proof.
  intros Hu.
  unfold WordPressManager, __init__, bind, get_self. simpl. rewrite Hu. reflexivity.
Qed.

(** C1, where the code departs from it.  With [WORDPRESS_URL] missing,
    construction does fail and sends nothing, but the failure is the
    [AttributeError] of calling [rstrip] on [None], raised before
    [_validate_config] is reached, and not the configuration error. *)
Theorem C1_missing_url_raises_attribute_error :
  forall (E : env) (rs : list request) (ps : list string) (f : filesystem),
    getenv E "WORDPRESS_URL" = None ->
    WordPressManager E rs ps f
    = (Raise (AttributeError "'NoneType' object has no attribute 'rstrip'"),
       mkState blank rs ps f).
Proof.
  intros E rs ps f Hu. apply init_without_url. exact Hu.
Qed.

Lemma C1_missing_url_raises_attribute_error_witness :
  WordPressManager (world config_without_url (always_ok JNull) "") [] [] fs_empty
  = (Raise (AttributeError "'NoneType' object has no attribute 'rstrip'"),
     mkState blank [] [] fs_empty).
Proof.
  apply (C1_missing_url_raises_attribute_error
           (world config_without_url (always_ok JNull) "") [] [] fs_empty).
  reflexivity.
Defined.

(** Whichever value is missing or empty, construction fails and neither a
    request nor a prompt leaves the client. *)
Lemma init_incomplete_config_sends_nothing (E : env) rs ps f :
  (exists k, In k required_keys /\ missing_or_empty E k) ->
  exists e m,
    WordPressManager E rs ps f = (Raise e, mkState m rs ps f)
    /\ ((exists msg, e = ValueError msg) \/ (exists msg, e = AttributeError msg)).
Proof.
  intros H. destruct (getenv E "WORDPRESS_URL") as [u|] eqn:Hu.
  - destruct (init_value_error E rs ps f u Hu H) as (k & m & _ & Heq).
    do 2 eexists. split; [exact Heq|]. left. eexists. reflexivity.
  - do 2 eexists. split; [apply init_without_url; exact Hu|].
    right. eexists. reflexivity.
Qed.

(** ** Authentication *)

Lemma startswith_app (p s : string) : Py.startswith p (p ++ s) = true.
Proof.
  unfold Py.startswith. induction p as [|a p IH]; simpl.
  - destruct s; reflexivity.
  - destruct (ascii_dec a a) as [_|Hne]; [exact IH | now elim Hne].
Qed.

Lemma raise_for_status_error (r : response) (s : state) :
  http_error r = true ->
  exists msg, raise_for_status r s = (Raise (RequestException HTTPError msg), s).
Proof.
  unfold http_error, raise_for_status. intros H.
  destruct ((400 <=? status_code r) && (status_code r <? 500)) eqn:H4;
    [eexists; reflexivity|].
  destruct ((500 <=? status_code r) && (status_code r <? 600)) eqn:H5;
    [eexists; reflexivity|].
  exfalso.
  apply andb_true_iff in H. destruct H as [Ha Hb].
  apply Z.leb_le in Ha. apply Z.ltb_lt in Hb.
  apply andb_false_iff in H4. apply andb_false_iff in H5.
  destruct H4 as [H4|H4]; [apply Z.leb_gt in H4; lia|apply Z.ltb_ge in H4].
  destruct H5 as [H5|H5]; [apply Z.leb_gt in H5; lia|apply Z.ltb_ge in H5; lia].
Qed.

Lemma raise_for_status_ok (r : response) (s : state) :
  http_error r = false -> raise_for_status r s = (Return tt, s).
Proof.
  unfold http_error, raise_for_status. intros H.
  destruct ((400 <=? status_code r) && (status_code r <? 500)) eqn:H4.
  - exfalso. apply andb_true_iff in H4. destruct H4 as [Ha Hb].
    apply Z.leb_le in Ha. apply Z.ltb_lt in Hb.
    apply andb_false_iff in H. destruct H as [H|H];
      [apply Z.leb_gt in H | apply Z.ltb_ge in H]; lia.
  - destruct ((500 <=? status_code r) && (status_code r <? 600)) eqn:H5; [|reflexivity].
    exfalso. apply andb_true_iff in H5. destruct H5 as [Ha Hb].
    apply Z.leb_le in Ha. apply Z.ltb_lt in Hb.
    apply andb_false_iff in H. destruct H as [H|H];
      [apply Z.leb_gt in H | apply Z.ltb_ge in H]; lia.
Qed.

(** [authenticate], case by case on what the site does with the token
    request. *)
Lemma authenticate_cases (E : env) (s : state) :
  let sent' := (sent s ++ [token_request (self s)])%list in
  let failed := mkState (self s) sent' (prompts s) (fs s) in
  match server E (sent s) (token_request (self s)) with
  | NetFailure msg =>
      authenticate E s = (Raise (PlainException ("Autentikasi gagal: " ++ msg)), failed)
  | NetReply r =>
      if http_error r then
        exists msg,
          authenticate E s = (Raise (PlainException ("Autentikasi gagal: " ++ msg)), failed)
      else
        match body r with
        | inr msg =>
            authenticate E s
            = (Raise (PlainException ("Autentikasi gagal: " ++ msg)), failed)
        | inl (JObj fields) =>
            authenticate E s
            = (Return tt,
               mkState
                 (mkManager (site_url (self s)) (api_url (self s)) (jwt_url (self s))
                    (username (self s)) (password (self s)) (gemini_api_key (self s))
                    (token_field fields)
                    (Some [("Authorization", "Bearer " ++ format_value E (token_field fields));
                           ("Content-Type", "application/json")])
                    (gemini_model (self s)))
                 sent' (prompts s) (fs s))
        | inl _ =>
            authenticate E s
            = (Raise (AttributeError "object has no attribute 'get'"), failed)
        end
  end.
Proof.
  intros sent' failed.
  unfold authenticate, try_except, bind, get_self, send.
  fold (token_request (self s)).
  destruct (server E (sent s) (token_request (self s))) as [msg|r]; [reflexivity|].
  destruct (http_error r) eqn:Herr.
  - destruct (raise_for_status_error r failed Herr) as (msg & Hmsg).
    exists msg. subst failed sent'. rewrite Hmsg. reflexivity.
  - subst failed sent'. rewrite (raise_for_status_ok r _ Herr).
    unfold response_json. destruct (body r) as [j|msg]; [|reflexivity].
    destruct j; reflexivity.
Qed.

(** C2, as amended.  [authenticate] sends the token request and
    - fails with [Exception("Autentikasi gagal: ...")] when the transport
      fails, when the status is an HTTP error (400 to 599) and when the
      body of a successful response is not JSON, leaving the object without
      token and headers as it was;
    - succeeds on every other response whose body is a JSON object: the
      token stored is the body's [token] field as it is ([None] when the
      field is absent), and the header set stored holds [Authorization],
      which is [Bearer ] followed by that value's text, and
      [Content-Type];
    - so that whenever it succeeds the [Authorization] value starts with
      [Bearer ], and the token is a non-empty string whenever the body's
      [token] field is. *)
Theorem C2_authenticate_outcomes :
  forall (E : env) (s : state),
    let q := token_request (self s) in
    let out := authenticate E s in
    new_requests s (snd out) = [q]
    /\ (forall msg, server E (sent s) q = NetFailure msg ->
          fst out = Raise (PlainException ("Autentikasi gagal: " ++ msg)))
    /\ (forall r, server E (sent s) q = NetReply r -> http_error r = true ->
          exists msg, fst out = Raise (PlainException ("Autentikasi gagal: " ++ msg)))
    /\ (forall r msg, server E (sent s) q = NetReply r -> http_error r = false ->
          body r = inr msg ->
          fst out = Raise (PlainException ("Autentikasi gagal: " ++ msg)))
    /\ (forall e, fst out = Raise e -> self (snd out) = self s)
    /\ (forall r fields, server E (sent s) q = NetReply r -> http_error r = false ->
          body r = inl (JObj fields) ->
          fst out = Return tt
          /\ token (self (snd out)) = token_field fields
          /\ headers (self (snd out))
             = Some [("Authorization", "Bearer " ++ format_value E (token_field fields));
                     ("Content-Type", "application/json")]
          /\ (forall t, dict_get "token" fields = Some (JStr t) -> t <> "" ->
                token (self (snd out)) = JStr t))
    /\ (fst out = Return tt ->
          exists v,
            and_then (headers (self (snd out))) (dict_get "Authorization") = Some v
            /\ Py.startswith "Bearer " v = true).
Proof.
  intros E s q out.
  pose proof (authenticate_cases E s) as H. cbv zeta in H.
  fold q in H. fold out in H.
  destruct (server E (sent s) q) as [msg|r] eqn:Hsrv.
  - rewrite H; simpl. split; [apply new_requests_app; reflexivity|].
    repeat split; intros; try congruence.
  - destruct (http_error r) eqn:Herr.
    + destruct H as (msg & H). rewrite H; simpl.
      split; [apply new_requests_app; reflexivity|].
      split; [intros; congruence|].
      split; [intros; exists msg; reflexivity|].
      repeat split; intros; congruence.
    + destruct (body r) as [j|msg] eqn:Hbody.
      * destruct j; rewrite H; simpl;
          (split; [apply new_requests_app; reflexivity|]);
          try (repeat split; intros; congruence).
        split; [intros; congruence|].
        split; [intros; congruence|].
        split; [intros; congruence|].
        split; [intros; congruence|].
        split.
        { intros r0 fields0 Hr0 _ Hb0.
          assert (fields0 = fields) as -> by congruence.
          repeat split. intros t Ht _. unfold token_field. rewrite Ht. reflexivity. }
        intros _. exists ("Bearer " ++ format_value E (token_field fields)).
        split; [reflexivity | apply startswith_app].
      * rewrite H; simpl.
        split; [apply new_requests_app; reflexivity|].
        split; [intros; congruence|].
        split; [intros; congruence|].
        split; [intros r0 msg0 Hr0 _ Hb0; assert (msg0 = msg) as -> by congruence;
                reflexivity|].
        repeat split; intros; congruence.
Qed.

Lemma C2_authenticate_outcomes_witness :
  let s := mkState (self good_state) [] [] fs_empty in
  fst (authenticate good_world s) = Return tt
  /\ token (self (snd (authenticate good_world s))) = JStr "abc.def.ghi"
  /\ headers (self (snd (authenticate good_world s)))
     = Some [("Authorization", "Bearer abc.def.ghi"); ("Content-Type", "application/json")].
Proof.
  intros s.
  destruct (C2_authenticate_outcomes good_world s) as (_ & _ & _ & _ & _ & H & _).
  destruct (H (mkResponse 200 "OK" (jwt_url (self s)) (inl (JObj [("token", JStr "abc.def.ghi")])))
              [("token", JStr "abc.def.ghi")] eq_refl eq_refl eq_refl)
    as (Hret & Htok & Hhdr & _).
  split; [exact Hret|]. split; [exact Htok | exact Hhdr].
Defined.

(** C2 fails as stated: the site answers the token request with [200 OK]
    and a JSON object that has no [token] field; construction succeeds, the
    token stored is [None] and the header sent from then on is
    [Bearer None]. *)
Lemma C2_counterexample :
  let out := WordPressManager tokenless_world [] [] fs_empty in
  fst out = Return tt
  /\ token (self (snd out)) = JNull
  /\ headers (self (snd out))
     = Some [("Authorization", "Bearer None"); ("Content-Type", "application/json")].
Proof. repeat split. Qed.

(** Once [WordPressManager()] has returned, the object holds the header
    set [authenticate] derived from the token: [Authorization], a
    [Bearer ] value, and the JSON [Content-Type]. *)
Lemma constructed_headers (E : env) rs ps f :
  fst (WordPressManager E rs ps f) = Return tt ->
  let m := self (snd (WordPressManager E rs ps f)) in
  headers m = Some [("Authorization", "Bearer " ++ format_value E (token m));
                    ("Content-Type", "application/json")]
  /\ gemini_model m = Some "gemini-1.5-flash".
Proof.
  unfold WordPressManager, __init__, _validate_config, bind, get_self, put_self, ret.
  destruct (getenv E "WORDPRESS_URL") as [u|]; [|discriminate].
  cbn [check_required self site_url username password gemini_api_key raise fst snd].
  destruct (truthy_str (Some (Py.rstrip_chars "/" u))); [|discriminate].
  destruct (truthy_str (getenv E "WORDPRESS_USERNAME")); [|discriminate].
  destruct (truthy_str (getenv E "WORDPRESS_PASSWORD")); [|discriminate].
  destruct (truthy_str (getenv E "GEMINI_API_KEY")); [|discriminate].
  unfold ret; cbn beta iota.
  match goal with |- context [authenticate E ?s0] => set (s := s0) end.
  pose proof (authenticate_cases E s) as H. cbv zeta in H.
  destruct (server E (sent s) (token_request (self s))) as [msg|r].
  { rewrite H. discriminate. }
  destruct (http_error r).
  { destruct H as (msg & ->). discriminate. }
  destruct (body r) as [j|msg]; [|rewrite H; discriminate].
  destruct j; rewrite H; try discriminate.
  unfold _configure_gemini, bind, get_self, put_self.
  cbn [self gemini_api_key fst snd].
  destruct (genai_setup E _ "gemini-1.5-flash"); [discriminate|].
  intros _. split; reflexivity.
Qed.

(** ** Article generation *)

Lemma split_cons (sep : ascii) (s : string) :
  exists w ws, Py.split sep s = w :: ws.
Proof.
  induction s as [|c s IH]; simpl.
  - eauto.
  - destruct (Ascii.eqb c sep); [eauto|].
    destruct IH as (w & ws & ->). eauto.
Qed.

Lemma word_count_default (length : string) :
  length <> "short" -> length <> "medium" -> length <> "long" ->
  word_count length = 500.
Proof.
  intros H1 H2 H3. unfold word_count, length_map. simpl.
  apply String.eqb_neq in H1, H2, H3. rewrite H1, H2, H3. reflexivity.
Qed.

(** ASCII text stays ASCII under the operations of the Python model, and
    on it [str.strip()] and [str.title()] are the ASCII functions. *)
Lemma all_chars_app (p : ascii -> bool) (a b : string) :
  all_chars p (a ++ b) = all_chars p a && all_chars p b.
Proof.
  induction a as [|c a IH]; simpl; [reflexivity|].
  rewrite IH. now rewrite andb_assoc.
Qed.

Lemma all_chars_split (p : ascii -> bool) (sep : ascii) (s : string) :
  all_chars p s = true ->
  Forall (fun w => all_chars p w = true) (Py.split sep s).
Proof.
  induction s as [|c s IH]; simpl; intros H.
  - repeat constructor.
  - apply andb_prop in H as [Hc Hs]. specialize (IH Hs).
    destruct (Ascii.eqb c sep); [constructor; [reflexivity | exact IH]|].
    destruct (Py.split sep s) as [|w ws].
    + constructor; [simpl; now rewrite Hc | constructor].
    + inversion IH; subst. constructor; [simpl; now rewrite Hc | assumption].
Qed.

Lemma all_chars_join (p : ascii -> bool) (sep : string) (parts : list string) :
  all_chars p sep = true ->
  Forall (fun w => all_chars p w = true) parts ->
  all_chars p (Py.join sep parts) = true.
Proof.
  intros Hsep. unfold Py.join.
  induction parts as [|w ws IH]; intros H; [reflexivity|].
  inversion H; subst. destruct ws as [|w' ws']; [assumption|].
  change (String.concat sep (w :: w' :: ws'))
    with (w ++ sep ++ String.concat sep (w' :: ws')).
  rewrite !all_chars_app, Hsep, IH by assumption.
  now rewrite andb_true_r.
Qed.

Lemma all_chars_lstrip_by (p q : ascii -> bool) (s : string) :
  all_chars p s = true -> all_chars p (Py.lstrip_by q s) = true.
Proof.
  induction s as [|c s IH]; simpl; intros H; [reflexivity|].
  destruct (q c); [|exact H].
  apply andb_prop in H as [_ Hs]. auto.
Qed.

Lemma all_chars_rstrip_by (p q : ascii -> bool) (s : string) :
  all_chars p s = true -> all_chars p (Py.rstrip_by q s) = true.
Proof.
  induction s as [|c s IH]; simpl; intros H; [reflexivity|].
  apply andb_prop in H as [Hc Hs]. specialize (IH Hs).
  destruct (Py.rstrip_by q s) as [|d r].
  - destruct (q c); simpl; [reflexivity | now rewrite Hc].
  - change (all_chars p (String c (String d r))) with (p c && all_chars p (String d r)).
    now rewrite Hc, IH.
Qed.

Lemma all_chars_strip_chars (p : ascii -> bool) (chars s : string) :
  all_chars p s = true -> all_chars p (Py.strip_chars chars s) = true.
Proof.
  intros H. unfold Py.strip_chars.
  now apply all_chars_rstrip_by, all_chars_lstrip_by.
Qed.

Lemma all_chars_hd (p : ascii -> bool) (l : list string) :
  Forall (fun w => all_chars p w = true) l -> all_chars p (hd "" l) = true.
Proof. intros [|w ws Hw _]; [reflexivity | exact Hw]. Qed.

Lemma all_chars_tl (p : ascii -> bool) (l : list string) :
  Forall (fun w => all_chars p w = true) l ->
  Forall (fun w => all_chars p w = true) (tl l).
Proof. intros [|w ws _ Hws]; [constructor | exact Hws]. Qed.

Lemma str_strip_ascii (E : env) (s : string) :
  all_chars is_ascii s = true -> str_strip E s = Py.strip s.
Proof. intros H. unfold str_strip. now rewrite H. Qed.

Lemma str_title_ascii (E : env) (s : string) :
  all_chars is_ascii s = true -> str_title E s = Py.title s.
Proof. intros H. unfold str_title. now rewrite H. Qed.

(** The title and the content taken from an ASCII answer that starts with
    a heading. *)
Lemma heading_parts_ascii (E : env) (text : string) :
  all_chars is_ascii text = true ->
  let lines := Py.split newline text in
  str_strip E (Py.strip_chars "# " (hd "" lines))
  = Py.strip (Py.strip_chars "# " (hd "" lines))
  /\ str_strip E (Py.join (String newline "") (tl lines))
     = Py.strip (Py.join (String newline "") (tl lines)).
Proof.
  intros H lines.
  pose proof (all_chars_split is_ascii newline text H) as Hlines. fold lines in Hlines.
  split; apply str_strip_ascii.
  - apply all_chars_strip_chars, all_chars_hd, Hlines.
  - apply all_chars_join; [reflexivity | apply all_chars_tl, Hlines].
Qed.

(** What the call does once the client is configured: the prompt goes to
    the service, and the service's text, or its failure, decides the
    outcome. *)
Lemma generate_article_run (E : env) (s : state) topic length model :
  gemini_model (self s) = Some model ->
  let prompt := article_prompt topic (word_count length) in
  let s' := mkState (self s) (sent s) (prompts s ++ [prompt])%list (fs s) in
  generate_article_with_gemini E topic length s
  = match genai_generate E model (prompts s) prompt with
    | inl text =>
        let lines := Py.split newline text in
        (Return (article_of E topic text lines (hd "" lines)), s')
    | inr msg => (Raise (ServiceError msg), s')
    end.
Proof.
  intros Hmodel prompt s'.
  unfold generate_article_with_gemini, generate_content, first_item, bind, ret.
  rewrite Hmodel. fold prompt.
  destruct (genai_generate E model (prompts s) prompt) as [text|msg]; [|reflexivity].
  destruct (split_cons newline text) as (w & ws & ->). reflexivity.
Qed.

(** C7, as amended.  [length] gives the target word count by the table
    short 200, medium 500, long 1000, and 500 for anything else, and that
    count is in the prompt sent.  When the first line of the answer starts
    with [#], the title is that line with [#] and space characters removed
    from both ends and then trimmed, and the content is the remaining
    lines joined by newlines and trimmed of leading and trailing
    whitespace; otherwise the title is the titleized topic and the content
    is the whole answer.  Trimming and titleizing are [str.strip()] and
    [str.title()]; on an ASCII answer and an ASCII topic they are the
    functions [Py.strip] and [Py.title]. *)
Theorem C7_generate_article :
  forall (E : env) (s : state) (topic length model text : string),
    gemini_model (self s) = Some model ->
    genai_generate E model (prompts s) (article_prompt topic (word_count length))
    = inl text ->
    let out := generate_article_with_gemini E topic length s in
    let lines := Py.split newline text in
    let line0 := hd "" lines in
    word_count "short" = 200 /\ word_count "medium" = 500 /\ word_count "long" = 1000
    /\ (length <> "short" -> length <> "medium" -> length <> "long" ->
        word_count length = 500)
    /\ new_prompts s (snd out) = [article_prompt topic (word_count length)]
    /\ (Py.startswith "#" line0 = true ->
        fst out
        = Return [("title", str_strip E (Py.strip_chars "# " line0));
                  ("content", str_strip E (Py.join (String newline "") (tl lines)))])
    /\ (Py.startswith "#" line0 = false ->
        fst out = Return [("title", str_title E topic); ("content", text)])
    /\ (all_chars is_ascii text = true ->
        str_strip E (Py.strip_chars "# " line0) = Py.strip (Py.strip_chars "# " line0)
        /\ str_strip E (Py.join (String newline "") (tl lines))
           = Py.strip (Py.join (String newline "") (tl lines)))
    /\ (all_chars is_ascii topic = true -> str_title E topic = Py.title topic).
Proof.
  intros E s topic length model text Hmodel Htext out lines line0.
  split; [reflexivity|]. split; [reflexivity|]. split; [reflexivity|].
  split; [apply word_count_default|].
  subst out. rewrite (generate_article_run E s topic length model Hmodel).
  cbv zeta. rewrite Htext. simpl fst. simpl snd.
  split; [unfold new_prompts; simpl; apply skipn_length_app|].
  fold lines. fold line0. unfold article_of.
  split; [intros ->; reflexivity|].
  split; [intros ->; reflexivity|].
  split; [apply heading_parts_ascii | apply str_title_ascii].
Qed.

Lemma C7_generate_article_witness :
  fst (generate_article_with_gemini heading_world "belajar c" "bogus" heading_state)
  = Return [("title", "Belajar C"); ("content", "Isi artikel.")]
  /\ new_prompts heading_state
       (snd (generate_article_with_gemini heading_world "belajar c" "bogus" heading_state))
     = [article_prompt "belajar c" 500].
Proof.
  destruct (C7_generate_article heading_world heading_state "belajar c" "bogus"
              "gemini-1.5-flash" heading_answer eq_refl eq_refl)
    as (_ & _ & _ & _ & Hprompt & Hhead & _).
  split; [exact (Hhead eq_refl) | exact Hprompt].
Defined.

(** C7 fails as stated: the answer's first line is the heading
    [# Belajar C#], followed by an empty line and one line of text.  The
    content returned is that text alone, not the remaining lines (which
    begin with the empty one), and the title has lost the [#] that ends
    it. *)
Lemma C7_counterexample :
  let lines := Py.split newline heading_answer in
  fst (generate_article_with_gemini heading_world "belajar c" "medium" heading_state)
  = Return [("title", "Belajar C"); ("content", "Isi artikel.")]
  /\ lines = ["# Belajar C#"; ""; "Isi artikel."]
  /\ "Isi artikel." <> Py.join (String newline "") (tl lines).
Proof.
  split; [reflexivity|]. split; [reflexivity|]. discriminate.
Qed.

(** ** Backup *)

Lemma append_assoc (a b c : string) : (a ++ b) ++ c = a ++ (b ++ c).
Proof. induction a as [|x a IH]; simpl; [reflexivity | now rewrite IH]. Qed.

Lemma in_z_range (lo len n : Z) : lo <= n < lo + len -> In n (z_range lo len).
Proof.
  intros H. apply in_map_iff. exists (Z.to_nat (n - lo)). split; [lia|].
  apply in_seq. lia.
Qed.

Lemma pad2_digits (n : Z) : 0 <= n <= 99 -> digits_exactly 2 (pad2 n) = true.
Proof.
  intros H.
  assert (Hall : forallb (fun k => digits_exactly 2 (pad2 k)) (z_range 0 100) = true)
    by (vm_compute; reflexivity).
  rewrite forallb_forall in Hall. apply Hall. apply in_z_range. lia.
Qed.

Lemma pad4_digits (n : Z) : 1000 <= n <= 9999 -> digits_exactly 4 (pad4 n) = true.
Proof.
  intros H.
  assert (Hall : forallb (fun k => digits_exactly 4 (pad4 k)) (z_range 1000 9000) = true)
    by (vm_compute; reflexivity).
  rewrite forallb_forall in Hall. apply Hall. apply in_z_range. lia.
Qed.



Lemma digits_all_chars (n : nat) (a : string) :
  digits_exactly n a = true -> all_chars is_digit a = true.
Proof.
  unfold digits_exactly. revert a. induction n as [|n IH]; intros a; simpl.
  - destruct a; [reflexivity | discriminate].
  - destruct a as [|c a]; [discriminate|]. simpl.
    destruct (is_digit c); [apply IH | discriminate].
Qed.

Lemma all_chars_weaken (p q : ascii -> bool) (s : string) :
  (forall c, p c = true -> q c = true) -> all_chars p s = true -> all_chars q s = true.
Proof.
  intros Hpq. induction s as [|c s IH]; simpl; [reflexivity|].
  intros H. apply andb_true_iff in H. destruct H as [Hc Hs].
  rewrite (Hpq c Hc), (IH Hs). reflexivity.
Qed.

Lemma digit_not_slash (c : ascii) : is_digit c = true -> not_slash c = true.
Proof.
  unfold is_digit, not_slash. intros H.
  destruct (Ascii.eqb c "/") eqn:Heq; [|reflexivity].
  apply Ascii.eqb_eq in Heq. subst c. discriminate H.
Qed.

Lemma split_without_separator (sep : ascii) (s : string) :
  all_chars (fun c => negb (Ascii.eqb c sep)) s = true -> Py.split sep s = [s].
Proof.
  induction s as [|c s IH]; simpl; [reflexivity|].
  intros H. apply andb_true_iff in H. destruct H as [Hc Hs].
  apply negb_true_iff in Hc. rewrite Hc, (IH Hs). reflexivity.
Qed.

(** The pieces of the timestamp, as digits. *)
Lemma stamp_digits (d : datetime) :
  valid_datetime d ->
  digits_exactly 4 (pad4 (year d)) = true
  /\ digits_exactly 2 (pad2 (month d)) = true
  /\ digits_exactly 2 (pad2 (day d)) = true
  /\ digits_exactly 2 (pad2 (hour d)) = true
  /\ digits_exactly 2 (pad2 (minute d)) = true
  /\ digits_exactly 2 (pad2 (second d)) = true.
Proof.
  intros (Hy & Hm & Hd & Hh & Hmi & Hs).
  repeat split; (apply pad4_digits || apply pad2_digits); lia.
Qed.


(** It is a single path component. *)
Lemma backup_name_component (d : datetime) :
  valid_datetime d -> parse_path (backup_name d) = [backup_name d].
Proof.
  intros Hd. destruct (stamp_digits d Hd) as (Hy & Hm & Hday & Hh & Hmi & Hs).
  assert (Hns : all_chars not_slash (backup_name d) = true).
  { unfold backup_name, strftime_stamp.
    rewrite !all_chars_app.
    rewrite (all_chars_weaken _ _ _ digit_not_slash (digits_all_chars _ _ Hy)).
    rewrite (all_chars_weaken _ _ _ digit_not_slash (digits_all_chars _ _ Hm)).
    rewrite (all_chars_weaken _ _ _ digit_not_slash (digits_all_chars _ _ Hday)).
    rewrite (all_chars_weaken _ _ _ digit_not_slash (digits_all_chars _ _ Hh)).
    rewrite (all_chars_weaken _ _ _ digit_not_slash (digits_all_chars _ _ Hmi)).
    rewrite (all_chars_weaken _ _ _ digit_not_slash (digits_all_chars _ _ Hs)).
    reflexivity. }
  unfold parse_path. rewrite (split_without_separator "/" _ Hns).
  unfold backup_name. reflexivity.
Qed.

Lemma path_eqb_eq (p q : path) : path_eqb p q = true <-> p = q.
Proof.
  revert q. induction p as [|x p IH]; intros [|y q]; simpl;
    try (split; [discriminate | discriminate]); [tauto|].
  rewrite andb_true_iff, String.eqb_eq, IH.
  split; [intros [-> ->]; reflexivity | intros [= -> ->]; auto].
Qed.

Lemma path_eqb_refl (p : path) : path_eqb p p = true.
Proof. now apply path_eqb_eq. Qed.

Lemma path_eqb_neq (p q : path) : p <> q -> path_eqb p q = false.
Proof.
  intros H. destruct (path_eqb p q) eqn:Heq; [|reflexivity].
  apply path_eqb_eq in Heq. contradiction.
Qed.

Lemma prefixes_length (p q : path) :
  In q (prefixes p) -> (List.length q <= List.length p)%nat.
Proof.
  revert q. induction p as [|x p IH]; intros q; simpl; [tauto|].
  intros [<-|Hin]; [simpl; lia|].
  apply in_map_iff in Hin. destruct Hin as (q' & <- & Hq').
  specialize (IH q' Hq'). simpl. lia.
Qed.

Lemma prefixes_self (p : path) : p <> [] -> In p (prefixes p).
Proof.
  induction p as [|x p IH]; [congruence|]. intros _. simpl.
  destruct p as [|y p]; [left; reflexivity|].
  right. apply in_map. apply IH. discriminate.
Qed.

Lemma extension_not_prefix (p : path) (x : string) :
  existsb (path_eqb (p ++ [x])%list) (prefixes p) = false.
Proof.
  destruct (existsb (path_eqb (p ++ [x])%list) (prefixes p)) eqn:H; [|reflexivity].
  apply existsb_exists in H. destruct H as (q & Hin & Heq).
  apply path_eqb_eq in Heq. subst q.
  apply prefixes_length in Hin. rewrite length_app in Hin. simpl in Hin. lia.
Qed.



(** * Further properties *)

(** ** Outcomes of the JSON calls *)

(** [fetch], case by case on what the site does with the request. *)
Lemma fetch_outcome (E : env) (r : request) (s : state) :
  fst (fetch E r s)
  = match server E (sent s) r with
    | NetFailure msg => Raise (RequestException TransportError msg)
    | NetReply resp =>
        if http_error resp then
          Raise (RequestException HTTPError
                   (Py.str_int (status_code resp)
                    ++ (if status_code resp <? 500 then " Client Error: "
                        else " Server Error: ")
                    ++ reason resp ++ " for url: " ++ resp_url resp))
        else match body resp with
             | inl j => Return j
             | inr msg => Raise (RequestException JSONDecodeError msg)
             end
    end.
Proof.
  unfold fetch, bind, send.
  destruct (server E (sent s) r) as [msg|resp]; [reflexivity|].
  unfold raise_for_status, http_error.
  destruct (400 <=? status_code resp) eqn:H4, (status_code resp <? 500) eqn:H5,
    (500 <=? status_code resp) eqn:H6, (status_code resp <? 600) eqn:H7;
    simpl; try reflexivity;
    try (unfold response_json; destruct (body resp); reflexivity);
    exfalso;
    repeat match goal with
           | H : (_ <=? _) = true |- _ => apply Z.leb_le in H
           | H : (_ <=? _) = false |- _ => apply Z.leb_gt in H
           | H : (_ <? _) = true |- _ => apply Z.ltb_lt in H
           | H : (_ <? _) = false |- _ => apply Z.ltb_ge in H
           end; lia.
Qed.

(** Each JSON call is one [fetch]. *)
Lemma json_call_fetch (E : env) (c : call) (s : state) :
  json_call c = true ->
  exists r, perform E c s = discard (fetch E r) s
            /\ req_headers r = headers (self s).
Proof.
  destruct c; try discriminate; intros _; eexists; split; reflexivity.
Qed.

Lemma discard_outcome {A} (m : M A) (s : state) :
  fst (discard m s) = match fst (m s) with Return _ => Return tt | Raise e => Raise e end.
Proof.
  unfold discard, bind, ret. destruct (m s) as [[a|e] s']; reflexivity.
Qed.

(** X1.  Every theme, menu, post and user call sends exactly one request,
    whatever the site answers, and then: it raises the library's
    [RequestException] when the transport fails, when the status is from
    400 to 599 and when the body is not JSON; otherwise, any status below
    400 or above 599 included, it returns. *)
Theorem json_call_outcomes :
  forall (E : env) (c : call) (s : state),
    json_call c = true ->
    exists r,
      new_requests s (snd (perform E c s)) = [r]
      /\ (forall msg, server E (sent s) r = NetFailure msg ->
            fst (perform E c s) = Raise (RequestException TransportError msg))
      /\ (forall resp, server E (sent s) r = NetReply resp -> http_error resp = true ->
            exists msg, fst (perform E c s) = Raise (RequestException HTTPError msg))
      /\ (forall resp msg, server E (sent s) r = NetReply resp ->
            http_error resp = false -> body resp = inr msg ->
            fst (perform E c s) = Raise (RequestException JSONDecodeError msg))
      /\ (forall resp j, server E (sent s) r = NetReply resp ->
            http_error resp = false -> body resp = inl j ->
            fst (perform E c s) = Return tt).
Proof.
  intros E c s Hc. destruct (json_call_fetch E c s Hc) as (r & Hr & _).
  exists r. rewrite Hr. split.
  { apply new_requests_app. rewrite discard_state, fetch_state. reflexivity. }
  rewrite discard_outcome, fetch_outcome.
  repeat split.
  - intros msg ->. reflexivity.
  - intros resp -> ->. eexists. reflexivity.
  - intros resp msg -> -> ->. reflexivity.
  - intros resp j -> -> ->. reflexivity.
Qed.

Lemma json_call_outcomes_witness :
  exists r,
    new_requests good_state (snd (perform good_world (DeletePost 7 "page") good_state)) = [r]
    /\ fst (perform good_world (DeletePost 7 "page") good_state) = Return tt.
Proof.
  destruct (json_call_outcomes good_world (DeletePost 7 "page") good_state eq_refl)
    as (r & Hr & _ & _ & _ & Hok).
  exists r. split; [exact Hr|].
  pose proof Hr as Hr'. vm_compute in Hr'. injection Hr' as <-.
  exact (Hok _ _ eq_refl eq_refl eq_refl).
Defined.

(** ** Shape of the requests *)

(** What holds of one call's requests for any state holds of those of a
    sequence of calls. *)
Lemma run_calls_requests (E : env) (Q : manager -> request -> Prop) :
  (forall c s, exists l, sent (snd (perform E c s)) = (sent s ++ l)%list
                         /\ Forall (Q (self s)) l) ->
  forall cs s, Forall (Q (self s)) (new_requests s (run_calls E cs s)).
Proof.
  intros Hone cs s.
  assert (H : exists l, sent (run_calls E cs s) = (sent s ++ l)%list
                        /\ Forall (Q (self s)) l).
  { revert s. induction cs as [|c cs IH]; intros s; simpl.
    - exists []. rewrite app_nil_r. split; [reflexivity | constructor].
    - destruct (Hone c s) as (l1 & Hs1 & Hl1).
      destruct (IH (snd (perform E c s))) as (l2 & Hs2 & Hl2).
      destruct (perform_frame E c s) as (Hself & _).
      exists (l1 ++ l2)%list. split.
      + rewrite Hs2, Hs1, app_assoc. reflexivity.
      + apply Forall_app. split; [exact Hl1|]. rewrite Hself in Hl2. exact Hl2. }
  destruct H as (l & Hsent & Hl).
  rewrite (new_requests_app s _ l Hsent). exact Hl.
Qed.

(** The requests of one call, with the properties the next theorems
    need. *)
Lemma perform_requests (E : env) (c : call) (s : state) :
  exists l,
    sent (snd (perform E c s)) = (sent s ++ l)%list
    /\ Forall (fun r =>
                 req_timeout r = expected_timeout r
                 /\ (api_url (self s) = site_url (self s) ++ "/wp-json/wp/v2" ->
                     Py.startswith (api_url (self s)) (req_url r) = true)
                 /\ (is_delete r = true ->
                     match c with DeletePost _ _ | DeleteUser _ _ => True | _ => False end))
              l.
Proof.
  assert (Hpre : forall a b, Py.startswith a (a ++ b) = true) by apply startswith_app.
  destruct c; unfold perform; rewrite discard_state;
    try (unfold list_themes, activate_theme, update_menu, create_post, update_post,
           delete_post, create_user, update_user, delete_user, bind, get_self;
         rewrite fetch_state; simpl; eexists; split; [reflexivity|];
         constructor; [|constructor];
         split; [reflexivity|]; split; [|simpl; try discriminate; auto];
         intros Hapi; try apply Hpre;
         try (rewrite Hapi, <- append_assoc; apply Hpre)).
  - simpl. rewrite Hapi.
    change "/wp-json/wp/v2/themes" with ("/wp-json/wp/v2" ++ "/themes").
    rewrite <- append_assoc. apply Hpre.
  - simpl. rewrite Hapi.
    change "/wp-json/wp/v2/settings" with ("/wp-json/wp/v2" ++ "/settings").
    rewrite <- append_assoc. apply Hpre.
  - rewrite upload_media_state; simpl. eexists. split; [reflexivity|].
    destruct (and_then _ _); [|constructor].
    destruct (open_rb _ _); constructor; [|constructor].
    split; [reflexivity|]. split; [intros _; apply Hpre | discriminate].
  - simpl. unfold delete_user_url. destruct (truthy_int reassign);
      [rewrite append_assoc; apply Hpre | apply Hpre].
  - destruct (backup_site_frame E s backup_path) as (_ & Hsent & _).
    exists []. rewrite app_nil_r. split; [exact Hsent | constructor].
  - destruct (generate_article_frame E s topic length) as (_ & Hsent).
    exists []. rewrite app_nil_r. split; [exact Hsent | constructor].
Qed.

(** X2.  Every request of every call carries the fixed timeout of its kind: 15
    seconds for the multipart upload, 10 seconds for all the others. *)
Theorem requests_use_fixed_timeouts :
  forall (E : env) (cs : list call) (s : state),
    Forall (fun r => req_timeout r = expected_timeout r)
           (new_requests s (run_calls E cs s)).
Proof.
  intros E. apply (run_calls_requests E (fun _ r => req_timeout r = expected_timeout r)).
  intros c s. destruct (perform_requests E c s) as (l & Hsent & Hl).
  exists l. split; [exact Hsent|].
  eapply Forall_impl; [|exact Hl]. intros r (H & _). exact H.
Qed.

(** X3.  With the API root derived from the site URL as [__init__] derives it,
    every request of every call goes to a URL that starts with that
    root. *)
Theorem requests_stay_under_api_root :
  forall (E : env) (cs : list call) (s : state),
    api_url (self s) = site_url (self s) ++ "/wp-json/wp/v2" ->
    Forall (fun r => Py.startswith (api_url (self s)) (req_url r) = true)
           (new_requests s (run_calls E cs s)).
Proof.
  intros E cs s Hapi.
  pose proof (run_calls_requests E
                (fun m r => api_url m = site_url m ++ "/wp-json/wp/v2" ->
                            Py.startswith (api_url m) (req_url r) = true)) as H.
  eapply Forall_impl; [|apply H].
  - intros r Hr. exact (Hr Hapi).
  - intros c s0. destruct (perform_requests E c s0) as (l & Hsent & Hl).
    exists l. split; [exact Hsent|].
    eapply Forall_impl; [|exact Hl]. intros r (_ & Hr & _). exact Hr.
Qed.

Lemma requests_stay_under_api_root_witness :
  Forall (fun r => Py.startswith "https://blog.example/wp-json/wp/v2" (req_url r) = true)
         (new_requests good_state
            (run_calls good_world
               [ListThemes; UpdateMenu 3 []; DeleteUser 7 (Some 5)] good_state)).
Proof.
  apply (requests_stay_under_api_root good_world
           [ListThemes; UpdateMenu 3 []; DeleteUser 7 (Some 5)] good_state).
  reflexivity.
Defined.

(** X4.  A sequence of calls without [delete_post] and [delete_user] never
    sends a DELETE request. *)
Theorem only_delete_calls_delete :
  forall (E : env) (cs : list call) (s : state),
    Forall (fun c => deleting c = false) cs ->
    Forall (fun r => is_delete r = false) (new_requests s (run_calls E cs s)).
Proof.
  intros E cs s Hcs.
  assert (H : exists l, sent (run_calls E cs s) = (sent s ++ l)%list
                        /\ Forall (fun r => is_delete r = false) l).
  { revert s. induction Hcs as [|c cs Hc Hcs IH]; intros s; simpl.
    - exists []. rewrite app_nil_r. split; [reflexivity | constructor].
    - destruct (perform_requests E c s) as (l1 & Hs1 & Hl1).
      destruct (IH (snd (perform E c s))) as (l2 & Hs2 & Hl2).
      exists (l1 ++ l2)%list. split.
      + rewrite Hs2, Hs1, app_assoc. reflexivity.
      + apply Forall_app. split; [|exact Hl2].
        eapply Forall_impl; [|exact Hl1]. intros r (_ & _ & Hdel).
        destruct (is_delete r); [|reflexivity].
        specialize (Hdel eq_refl). destruct c; try contradiction; discriminate. }
  destruct H as (l & Hsent & Hl).
  rewrite (new_requests_app s _ l Hsent). exact Hl.
Qed.

Lemma only_delete_calls_delete_witness :
  Forall (fun r => is_delete r = false)
         (new_requests good_state
            (run_calls good_world
               [CreateUser "a" "a@b.c" "pw" "editor"; UpdateUser 4 None (Some "author")]
               good_state)).
Proof.
  apply (only_delete_calls_delete good_world
           [CreateUser "a" "a@b.c" "pw" "editor"; UpdateUser 4 None (Some "author")]
           good_state).
  repeat constructor.
Defined.

(** ** More on construction *)

Lemma rstrip_by_ends_clean (p : ascii -> bool) (s : string) :
  ends_clean p (Py.rstrip_by p s) = true.
Proof.
  induction s as [|c s IH]; simpl; [reflexivity|].
  destruct (Py.rstrip_by p s) as [|d r] eqn:Hr.
  - destruct (p c) eqn:Hc; simpl; [reflexivity | now rewrite Hc].
  - exact IH.
Qed.

Lemma rstrip_by_all (p : ascii -> bool) (s : string) :
  all_chars p s = true -> Py.rstrip_by p s = "".
Proof.
  induction s as [|c s IH]; simpl; [reflexivity|].
  intros H. apply andb_true_iff in H. destruct H as [Hc Hs].
  rewrite (IH Hs), Hc. reflexivity.
Qed.

(** With a complete configuration [__init__] gets as far as
    authenticating: it is [authenticate] and then [_configure_gemini] on
    the object holding the configuration. *)
Lemma init_run (E : env) (u : string) (s : state) :
  complete_config E u ->
  __init__ E s
  = (authenticate E ;;; _configure_gemini E)
      (mkState (configured E u (self s)) (sent s) (prompts s) (fs s)).
Proof.
  intros (Hu & T1 & T2 & T3 & T4).
  unfold __init__, _validate_config, bind, get_self, put_self, ret.
  rewrite Hu.
  cbn [check_required self site_url username password gemini_api_key raise fst snd
       configured sent prompts fs].
  unfold configured.
  cbn [check_required self site_url username password gemini_api_key raise fst snd].
  rewrite T1, T2, T3, T4. reflexivity.
Qed.

(** X5.  With a complete configuration, construction sends exactly one
    request, whatever comes of it: the POST of the user name and the
    password, as JSON and without headers, to the token endpoint under
    the site URL stripped of its trailing slashes. *)
Theorem construction_sends_token_request :
  forall (E : env) (u : string) rs ps f,
    complete_config E u ->
    let m := configured E u blank in
    new_requests (mkState blank rs ps f) (snd (WordPressManager E rs ps f))
    = [mkRequest POST (Py.rstrip_chars "/" u ++ "/wp-json/jwt-auth/v1/token") None
         (JsonBody (JObj [("username", str_arg (getenv E "WORDPRESS_USERNAME"));
                          ("password", str_arg (getenv E "WORDPRESS_PASSWORD"))])) 10].
Proof.
  intros E u rs ps f Hcfg m.
  unfold WordPressManager. rewrite (init_run E u _ Hcfg).
  cbn [self sent prompts fs].
  set (s0 := mkState (configured E u blank) rs ps f).
  apply new_requests_app. cbn [sent].
  unfold bind.
  pose proof (authenticate_cases E s0) as H. cbv zeta in H.
  change (token_request (self s0)) with
    (mkRequest POST (Py.rstrip_chars "/" u ++ "/wp-json/jwt-auth/v1/token") None
       (JsonBody (JObj [("username", str_arg (getenv E "WORDPRESS_USERNAME"));
                        ("password", str_arg (getenv E "WORDPRESS_PASSWORD"))])) 10) in H.
  destruct (server E (sent s0) _) as [msg|r].
  { rewrite H. reflexivity. }
  destruct (http_error r).
  { destruct H as (msg & ->). reflexivity. }
  destruct (body r) as [j|msg]; [|rewrite H; reflexivity].
  destruct j; rewrite H; try reflexivity.
  unfold _configure_gemini, bind, get_self, put_self.
  cbn [self gemini_api_key fst snd].
  destruct (genai_setup E _ "gemini-1.5-flash"); reflexivity.
Qed.

Lemma construction_sends_token_request_witness :
  new_requests (mkState blank [] [] fs_empty)
    (snd (WordPressManager good_world [] [] fs_empty))
  = [mkRequest POST "https://blog.example/wp-json/jwt-auth/v1/token" None
       (JsonBody (JObj [("username", JStr "admin"); ("password", JStr "s3cret")])) 10].
Proof.
  apply (construction_sends_token_request good_world "https://blog.example/" [] [] fs_empty).
  repeat split.
Defined.

(** [__init__] returns only with a complete configuration. *)
Lemma init_success_config (E : env) (s : state) :
  fst (__init__ E s) = Return tt -> exists u, complete_config E u.
Proof.
  unfold __init__, _validate_config, bind, get_self, put_self, ret.
  destruct (getenv E "WORDPRESS_URL") as [u|] eqn:Hu; [|discriminate].
  cbn [check_required self site_url username password gemini_api_key raise fst snd].
  destruct (truthy_str (Some (Py.rstrip_chars "/" u))) eqn:T1; [|discriminate].
  destruct (truthy_str (getenv E "WORDPRESS_USERNAME")) eqn:T2; [|discriminate].
  destruct (truthy_str (getenv E "WORDPRESS_PASSWORD")) eqn:T3; [|discriminate].
  destruct (truthy_str (getenv E "GEMINI_API_KEY")) eqn:T4; [|discriminate].
  intros _. exists u. repeat split; assumption.
Qed.

(** X6.  When the token request fails, by the transport or by an HTTP error
    status, construction fails with the authentication error; the object
    is left with no token, no headers and no AI model. *)
Theorem construction_fails_when_authentication_fails :
  forall (E : env) (u : string) rs ps f,
    complete_config E u ->
    let q := token_request (configured E u blank) in
    let left := mkState (configured E u blank) (rs ++ [q])%list ps f in
    (forall msg, server E rs q = NetFailure msg ->
       WordPressManager E rs ps f
       = (Raise (PlainException ("Autentikasi gagal: " ++ msg)), left))
    /\ (forall r, server E rs q = NetReply r -> http_error r = true ->
          exists msg,
            WordPressManager E rs ps f
            = (Raise (PlainException ("Autentikasi gagal: " ++ msg)), left))
    /\ token (self left) = JNull /\ headers (self left) = None
    /\ gemini_model (self left) = None.
Proof.
  intros E u rs ps f Hcfg q left.
  unfold WordPressManager. rewrite (init_run E u _ Hcfg).
  cbn [self sent prompts fs].
  set (s0 := mkState (configured E u blank) rs ps f).
  pose proof (authenticate_cases E s0) as H. cbv zeta in H.
  change (token_request (self s0)) with q in H. change (sent s0) with rs in H.
  unfold bind.
  split; [|split; [|repeat split]].
  - intros msg Hsrv. rewrite Hsrv in H. rewrite H. reflexivity.
  - intros r Hsrv Herr. rewrite Hsrv, Herr in H. destruct H as (msg & H).
    exists msg. rewrite H. reflexivity.
Qed.

Lemma construction_fails_when_authentication_fails_witness :
  let E := world full_config (fun _ _ => NetFailure "Connection refused") "" in
  fst (WordPressManager E [] [] fs_empty)
  = Raise (PlainException "Autentikasi gagal: Connection refused").
Proof.
  intros E.
  destruct (construction_fails_when_authentication_fails E "https://blog.example/"
              [] [] fs_empty) as (H & _).
  - repeat split.
  - rewrite (H "Connection refused" eq_refl). reflexivity.
Defined.

(** X7.  When authentication succeeds and setting up the AI library raises,
    construction fails with that exception, after the token request has
    been sent. *)
Theorem construction_fails_when_gemini_setup_fails :
  forall (E : env) (u : string) rs ps f r fields msg,
    complete_config E u ->
    server E rs (token_request (configured E u blank)) = NetReply r ->
    http_error r = false ->
    body r = inl (JObj fields) ->
    genai_setup E (getenv E "GEMINI_API_KEY") "gemini-1.5-flash" = Some msg ->
    fst (WordPressManager E rs ps f) = Raise (ServiceError msg)
    /\ sent (snd (WordPressManager E rs ps f))
       = (rs ++ [token_request (configured E u blank)])%list.
Proof.
  intros E u rs ps f r fields msg Hcfg Hsrv Herr Hbody Hsetup.
  unfold WordPressManager. rewrite (init_run E u _ Hcfg).
  cbn [self sent prompts fs].
  set (s0 := mkState (configured E u blank) rs ps f).
  pose proof (authenticate_cases E s0) as H. cbv zeta in H.
  change (sent s0) with rs in H. change (self s0) with (configured E u blank) in H.
  rewrite Hsrv, Herr, Hbody in H.
  unfold bind. rewrite H.
  unfold _configure_gemini, bind, get_self, put_self.
  cbn [self gemini_api_key configured fst snd]. rewrite Hsetup. split; reflexivity.
Qed.

Lemma construction_fails_when_gemini_setup_fails_witness :
  let E := mkEnv (fun k => dict_get k full_config)
             (always_ok (JObj [("token", JStr "t")]))
             (fun _ _ => Some "invalid API key") (fun _ _ _ => inl "")
             (mkDatetime 2026 11 4 9 5 0) (fun _ => "") (fun s => s) (fun s => s) in
  fst (WordPressManager E [] [] fs_empty) = Raise (ServiceError "invalid API key").
Proof.
  intros E.
  exact (proj1 (construction_fails_when_gemini_setup_fails E "https://blog.example/"
                  [] [] fs_empty _ _ "invalid API key"
                  (conj eq_refl (conj eq_refl (conj eq_refl (conj eq_refl eq_refl))))
                  eq_refl eq_refl eq_refl eq_refl)).
Defined.

Lemma mem_char_slash (c : ascii) : Py.mem_char c "/" = is_slash c.
Proof. unfold is_slash. simpl. destruct (Ascii.eqb c "/"); reflexivity. Qed.

(** X8.  A site URL made of slashes only, such as [/], is stripped to the
    empty string and reported as a missing [WORDPRESS_URL]; nothing is
    sent. *)
Theorem slash_only_url_counts_as_missing :
  forall (E : env) (u : string) rs ps f,
    getenv E "WORDPRESS_URL" = Some u ->
    all_chars is_slash u = true ->
    exists m,
      WordPressManager E rs ps f
      = (Raise (ValueError "Konfigurasi WORDPRESS_URL tidak ditemukan di .env"),
         mkState m rs ps f).
Proof.
  intros E u rs ps f Hu Hall.
  assert (Hstrip : Py.rstrip_chars "/" u = "").
  { unfold Py.rstrip_chars. apply rstrip_by_all.
    eapply all_chars_weaken; [|exact Hall].
    intros c Hc. rewrite mem_char_slash. exact Hc. }
  unfold WordPressManager, __init__, _validate_config, bind, get_self, put_self, ret.
  rewrite Hu, Hstrip. eexists. reflexivity.
Qed.

Lemma slash_only_url_counts_as_missing_witness :
  exists m,
    WordPressManager
      (world (("WORDPRESS_URL", "//") :: config_without_url) (always_ok JNull) "")
      [] [] fs_empty
    = (Raise (ValueError "Konfigurasi WORDPRESS_URL tidak ditemukan di .env"),
       mkState m [] [] fs_empty).
Proof.
  apply (slash_only_url_counts_as_missing
           (world (("WORDPRESS_URL", "//") :: config_without_url) (always_ok JNull) "")
           "//" [] [] fs_empty); reflexivity.
Defined.

(** X9.  With the site URL present, [_validate_config] reports the first key,
    in the order URL, user name, password, AI key, whose value is missing
    or empty, and stops there: nothing is sent. *)
Theorem validation_names_first_missing_key :
  forall (E : env) (u : string) rs ps f (before after : list string) (k : string),
    getenv E "WORDPRESS_URL" = Some u ->
    required_keys = (before ++ k :: after)%list ->
    (forall k', In k' before -> truthy_str (config_value E u k') = true) ->
    truthy_str (config_value E u k) = false ->
    exists m,
      WordPressManager E rs ps f
      = (Raise (ValueError ("Konfigurasi " ++ k ++ " tidak ditemukan di .env")),
         mkState m rs ps f).
Proof.
  intros E u rs ps f before after k Hu Hkeys Hbefore Hk.
  unfold WordPressManager, __init__, _validate_config, bind, get_self, put_self, ret.
  rewrite Hu.
  cbn [check_required self site_url username password gemini_api_key raise fst snd].
  unfold required_keys in Hkeys.
  destruct before as [|k1 before]; [injection Hkeys as <- _|injection Hkeys as <- Hkeys].
  { unfold config_value in Hk. simpl in Hk. simpl. rewrite Hk. eexists; reflexivity. }
  pose proof (Hbefore "WORDPRESS_URL" (or_introl eq_refl)) as T1.
  unfold config_value in T1; simpl in T1. simpl (truthy_str (Some _)). rewrite T1.
  destruct before as [|k2 before]; [injection Hkeys as <- _|injection Hkeys as <- Hkeys].
  { unfold config_value in Hk. simpl in Hk. rewrite Hk. eexists; reflexivity. }
  pose proof (Hbefore "WORDPRESS_USERNAME" (or_intror (or_introl eq_refl))) as T2.
  unfold config_value in T2; simpl in T2. rewrite T2.
  destruct before as [|k3 before]; [injection Hkeys as <- _|injection Hkeys as <- Hkeys].
  { unfold config_value in Hk. simpl in Hk. rewrite Hk. eexists; reflexivity. }
  pose proof (Hbefore "WORDPRESS_PASSWORD"
                (or_intror (or_intror (or_introl eq_refl)))) as T3.
  unfold config_value in T3; simpl in T3. rewrite T3.
  destruct before as [|k4 before]; [injection Hkeys as <- _|injection Hkeys as <- Hkeys].
  { unfold config_value in Hk. simpl in Hk. rewrite Hk. eexists; reflexivity. }
  destruct before; discriminate Hkeys.
Qed.

Lemma validation_names_first_missing_key_witness :
  let E := world [("WORDPRESS_URL", "https://blog.example"); ("WORDPRESS_USERNAME", "admin");
                  ("WORDPRESS_PASSWORD", "")] (always_ok JNull) "" in
  exists m,
    WordPressManager E [] [] fs_empty
    = (Raise (ValueError "Konfigurasi WORDPRESS_PASSWORD tidak ditemukan di .env"),
       mkState m [] [] fs_empty).
Proof.
  intros E.
  apply (validation_names_first_missing_key E "https://blog.example" [] [] fs_empty
           ["WORDPRESS_URL"; "WORDPRESS_USERNAME"] ["GEMINI_API_KEY"] "WORDPRESS_PASSWORD").
  - reflexivity.
  - reflexivity.
  - intros k' [<-|[<-|[]]]; reflexivity.
  - reflexivity.
Defined.

(** X10.  On a constructed client the site URL is not empty and does not end
    with a slash, and the API root and the token endpoint are that URL
    followed by their fixed paths. *)
Theorem constructed_urls :
  forall (E : env) rs ps f,
    fst (WordPressManager E rs ps f) = Return tt ->
    let m := self (snd (WordPressManager E rs ps f)) in
    site_url m <> ""
    /\ ends_clean is_slash (site_url m) = true
    /\ api_url m = site_url m ++ "/wp-json/wp/v2"
    /\ jwt_url m = site_url m ++ "/wp-json/jwt-auth/v1/token".
Proof.
  intros E rs ps f Hok.
  destruct (init_success_config E _ Hok) as (u & Hcfg).
  assert (Hself : exists tok hdr mdl,
             self (snd (WordPressManager E rs ps f))
             = mkManager (Py.rstrip_chars "/" u)
                 (Py.rstrip_chars "/" u ++ "/wp-json/wp/v2")
                 (Py.rstrip_chars "/" u ++ "/wp-json/jwt-auth/v1/token")
                 (getenv E "WORDPRESS_USERNAME") (getenv E "WORDPRESS_PASSWORD")
                 (getenv E "GEMINI_API_KEY") tok hdr mdl).
  { unfold WordPressManager. rewrite (init_run E u _ Hcfg).
    cbn [self sent prompts fs].
    set (s0 := mkState (configured E u blank) rs ps f).
    pose proof (authenticate_cases E s0) as H. cbv zeta in H.
    unfold bind.
    destruct (server E (sent s0) _) as [msg|r].
    { rewrite H. do 3 eexists. reflexivity. }
    destruct (http_error r).
    { destruct H as (msg & ->). do 3 eexists. reflexivity. }
    destruct (body r) as [j|msg]; [|rewrite H; do 3 eexists; reflexivity].
    destruct j; rewrite H; try (do 3 eexists; reflexivity).
    unfold _configure_gemini, bind, get_self, put_self.
    cbn [self gemini_api_key fst snd].
    destruct (genai_setup E _ "gemini-1.5-flash"); do 3 eexists; reflexivity. }
  destruct Hself as (tok & hdr & mdl & Hself). cbv zeta. rewrite Hself.
  cbn [site_url api_url jwt_url].
  destruct Hcfg as (_ & T1 & _).
  split; [|split; [|split; reflexivity]].
  - intros Hempty. rewrite Hempty in T1. discriminate T1.
  - unfold Py.rstrip_chars.
    assert (Hext : forall s, ends_clean is_slash s = ends_clean (fun c => Py.mem_char c "/") s).
    { induction s as [|c [|d s] IH]; [reflexivity| |exact IH].
      unfold is_slash. simpl. destruct (Ascii.eqb c "/"); reflexivity. }
    rewrite Hext. apply rstrip_by_ends_clean.
Qed.

Lemma constructed_urls_witness :
  site_url (self good_state) = "https://blog.example"
  /\ api_url (self good_state) = "https://blog.example/wp-json/wp/v2".
Proof.
  destruct (constructed_urls good_world [] [] fs_empty eq_refl) as (_ & _ & Hapi & _).
  split; [reflexivity | exact Hapi].
Defined.

(** ** More on the media upload *)




Lemma split_parts_without_separator (sep : ascii) (s : string) :
  Forall (fun w => all_chars (fun c => negb (Ascii.eqb c sep)) w = true) (Py.split sep s).
Proof.
  induction s as [|c s IH]; simpl.
  - repeat constructor.
  - destruct (Ascii.eqb c sep) eqn:Hc.
    + constructor; [reflexivity | exact IH].
    + destruct (Py.split sep s) as [|w ws]; [repeat constructor; simpl; now rewrite Hc|].
      inversion IH as [|? ? Hw Hws]; subst.
      constructor; [simpl; rewrite Hc, Hw; reflexivity | exact Hws].
Qed.

Lemma last_in_forall {A} (P : A -> Prop) (l : list A) (d : A) :
  Forall P l -> P d -> P (last l d).
Proof.
  induction l as [|x [|y l] IH]; intros Hl Hd; simpl.
  - exact Hd.
  - inversion Hl; assumption.
  - apply IH; [inversion Hl; assumption | exact Hd].
Qed.

Lemma basename_has_no_slash (p : string) : all_chars not_slash (Py.basename p) = true.
Proof.
  unfold Py.basename.
  apply (last_in_forall (fun w => all_chars not_slash w = true)).
  - exact (split_parts_without_separator "/" p).
  - reflexivity.
Qed.

(** A name that [open] accepts ends with a component that is neither
    empty nor [.]. *)
Lemma open_rb_basename (f : filesystem) (name bytes : string) :
  open_rb f name = inl bytes ->
  Py.basename name <> "" /\ Py.basename name <> ".".
Proof.
  unfold open_rb, must_be_directory.
  destruct (Py.mem_char zero name); [discriminate|].
  destruct (String.eqb name ""); [discriminate|].
  destruct (first_obstacle f name _); [discriminate|].
  destruct (is_anchor _); [discriminate|].
  destruct (file_content f _); [|destruct (is_dir f _); discriminate].
  destruct (String.eqb (Py.basename name) "") eqn:H1; [discriminate|].
  destruct (String.eqb (Py.basename name) ".") eqn:H2; [discriminate|].
  intros _. split; apply String.eqb_neq; assumption.
Qed.

(** X12.  When the file opens, the upload sent is one multipart POST to the
    media collection: the file goes under the field [file] with its
    content and with the last component of its path as name, which is not
    empty and holds no slash, and the form carries the alt text and the
    description. *)
Theorem upload_sends_file_under_its_basename :
  forall (E : env) (s : state) (file_path alt_text description v bytes : string),
    and_then (headers (self s)) (dict_get "Authorization") = Some v ->
    open_rb (fs s) file_path = inl bytes ->
    exists name,
      new_requests s (snd (upload_media E file_path alt_text description s))
      = [mkRequest POST (api_url (self s) ++ "/media") (Some [("Authorization", v)])
           (Multipart [("file", (name, bytes))]
              [("alt_text", alt_text); ("description", description)]) 15]
      /\ name = Py.basename file_path
      /\ name <> ""
      /\ all_chars not_slash name = true.
Proof.
  intros E s file_path alt_text description v bytes Hauth Hfile.
  exists (Py.basename file_path).
  split; [|split; [reflexivity|split; [|apply basename_has_no_slash]]].
  - apply new_requests_app. rewrite upload_media_state, Hauth, Hfile. reflexivity.
  - exact (proj1 (open_rb_basename _ _ _ Hfile)).
Qed.

Lemma upload_sends_file_under_its_basename_witness :
  new_requests image_state
    (snd (upload_media good_world "img/a.jpg" "Gambar" "Deskripsi" image_state))
  = [mkRequest POST "https://blog.example/wp-json/wp/v2/media"
       (Some [("Authorization", "Bearer abc.def.ghi")])
       (Multipart [("file", ("a.jpg", "JFIF"))]
          [("alt_text", "Gambar"); ("description", "Deskripsi")]) 15].
Proof.
  destruct (upload_sends_file_under_its_basename good_world image_state "img/a.jpg"
              "Gambar" "Deskripsi" "Bearer abc.def.ghi" "JFIF" eq_refl eq_refl)
    as (name & Hreq & -> & _).
  exact Hreq.
Defined.

(** ** More on the backup *)

(** X13.  When a regular file stands at the backup path or above it, the
    backup raises and creates nothing: no directory, no file. *)
Theorem backup_blocked_by_a_file :
  forall (E : env) (s : state) (backup_path : string) (q : path),
    In q (prefixes (parse_path backup_path)) ->
    is_file (fs s) q = true ->
    snd (backup_site E backup_path s) = s
    /\ (fst (backup_site E backup_path s)
        = Raise (FileExistsError (path_str (parse_path backup_path)))
        \/ fst (backup_site E backup_path s)
           = Raise (NotADirectoryError (path_str (parse_path backup_path)))).
Proof.
  intros E s backup_path q Hin Hq.
  unfold backup_site, mkdir_parents, bind, get_fs, raise.
  destruct (find (is_file (fs s)) (prefixes (parse_path backup_path))) as [q'|] eqn:Hfind.
  - cbn beta iota. destruct (path_eqb q' (parse_path backup_path)); simpl; auto.
  - exfalso. pose proof (find_none _ _ Hfind q Hin) as Hnone. congruence.
Qed.

Lemma backup_blocked_by_a_file_witness :
  let s := mkState (self good_state) [] []
             (mkFs (fun _ => false)
                   (fun p => if path_eqb p ["backups"] then Some "x" else None)) in
  snd (backup_site good_world "backups" s) = s
  /\ fst (backup_site good_world "backups" s) = Raise (FileExistsError "backups").
Proof.
  intros s.
  destruct (backup_blocked_by_a_file good_world s "backups" ["backups"]) as (Hs & Hr).
  - simpl. auto.
  - reflexivity.
  - split; [exact Hs | reflexivity].
Defined.

(** X14.  A second backup taken within the same second returns the same path
    and leaves the file system as the first one left it: the one backup
    file is overwritten with the same text. *)
Theorem backup_twice_in_a_second :
  forall (E : env) (s : state) (backup_path : string),
    let dir := parse_path backup_path in
    let file := (dir ++ [backup_name (now E)])%list in
    let once := backup_site E backup_path s in
    let twice := backup_site E backup_path (snd once) in
    valid_datetime (now E) ->
    (forall q, In q (prefixes dir) -> is_file (fs s) q = false) ->
    is_dir (fs s) file = false ->
    fst twice = fst once
    /\ (forall q, is_dir (fs (snd twice)) q = is_dir (fs (snd once)) q)
    /\ (forall q, file_content (fs (snd twice)) q = file_content (fs (snd once)) q).
Proof.
  intros E s backup_path dir file once twice Hnow Hfiles Hfile.
  assert (Hfind : forall f, (forall q, In q (prefixes dir) -> is_file f q = false) ->
                            find (is_file f) (prefixes dir) = None).
  { intros f Hf. destruct (find (is_file f) (prefixes dir)) as [q|] eqn:Hq; [|reflexivity].
    apply find_some in Hq. destruct Hq as [Hin Hq]. rewrite (Hf q Hin) in Hq. discriminate. }
  assert (Hjoin : path_join dir (backup_name (now E)) = file).
  { unfold path_join. rewrite (backup_name_component _ Hnow). reflexivity. }
  assert (Hparent : forall fc,
             parent_exists
               (mkFs (fun q => is_dir (fs s) q || existsb (path_eqb q) (prefixes dir)) fc)
               file = true).
  { intros fc. unfold parent_exists. subst file. rewrite removelast_last.
    destruct dir as [|x dir'] eqn:Hdir; [reflexivity|].
    cbn [is_dir]. apply orb_true_iff. right. apply existsb_exists.
    exists (x :: dir'). split; [apply prefixes_self; discriminate | apply path_eqb_refl]. }
  set (dirs1 := fun q => is_dir (fs s) q || existsb (path_eqb q) (prefixes dir)).
  set (files1 := fun q => if path_eqb q file then Some backup_text
                          else file_content (fs s) q).
  assert (Honce : once = (Return (path_str file),
                          mkState (self s) (sent s) (prompts s) (mkFs dirs1 files1))).
  { subst once. unfold backup_site, mkdir_parents, write_text, bind, get_fs, put_fs, ret.
    fold dir. rewrite (Hfind _ Hfiles), Hjoin.
    cbn [fs is_dir file_content self sent prompts fst snd].
    rewrite Hfile. unfold file at 1. rewrite extension_not_prefix. fold file.
    cbn [orb]. rewrite (Hparent (file_content (fs s))). reflexivity. }
  assert (Hfiles1 : forall q, In q (prefixes dir) -> is_file (mkFs dirs1 files1) q = false).
  { intros q Hq. unfold is_file, files1. cbn [file_content].
    rewrite path_eqb_neq.
    - apply (Hfiles q Hq).
    - intros ->. apply prefixes_length in Hq. unfold file in Hq.
      rewrite length_app in Hq. simpl in Hq. lia. }
  assert (Hdir1 : dirs1 file = false).
  { unfold dirs1. rewrite Hfile. unfold file at 1. rewrite extension_not_prefix.
    reflexivity. }
  assert (Htwice : twice
                   = (Return (path_str file),
                      mkState (self s) (sent s) (prompts s)
                        (mkFs (fun q => dirs1 q || existsb (path_eqb q) (prefixes dir))
                              (fun q => if path_eqb q file then Some backup_text
                                        else files1 q)))).
  { subst twice. rewrite Honce. cbn [snd].
    unfold backup_site, mkdir_parents, write_text, bind, get_fs, put_fs, ret.
    fold dir. cbn [fs]. rewrite (Hfind _ Hfiles1), Hjoin.
    cbn [fs is_dir file_content self sent prompts fst snd].
    rewrite Hdir1. unfold file at 1. rewrite extension_not_prefix. fold file.
    cbn [orb].
    assert (Hp : parent_exists
                   (mkFs (fun q => dirs1 q || existsb (path_eqb q) (prefixes dir)) files1)
                   file = true).
    { unfold parent_exists. unfold file. rewrite removelast_last.
      destruct dir as [|x dir'] eqn:Hdir; [reflexivity|].
      cbn [is_dir]. apply orb_true_iff. right. apply existsb_exists.
      exists (x :: dir'). split; [apply prefixes_self; discriminate | apply path_eqb_refl]. }
    rewrite Hp. reflexivity. }
  rewrite Htwice, Honce. cbn [fst snd fs is_dir file_content].
  split; [reflexivity|]. split.
  - intros q. unfold dirs1. destruct (is_dir (fs s) q); simpl; [reflexivity|].
    destruct (existsb (path_eqb q) (prefixes dir)); reflexivity.
  - intros q. unfold files1. destruct (path_eqb q file); reflexivity.
Qed.

Lemma backup_twice_in_a_second_witness :
  let once := backup_site good_world "backups" good_state in
  fst (backup_site good_world "backups" (snd once)) = fst once
  /\ fst once = Return "backups/backup_20261104_090500.zip".
Proof.
  intros once.
  destruct (backup_twice_in_a_second good_world good_state "backups") as (H & _).
  - unfold valid_datetime; simpl; lia.
  - intros q _. reflexivity.
  - reflexivity.
  - split; [exact H | reflexivity].
Defined.

(** ** More on article generation *)

(** X15.  When the AI service raises, [generate_article_with_gemini] raises the
    same exception.  The prompt has been handed to the service once; no
    HTTP request is sent and the object is untouched. *)
Theorem generation_failure_propagates :
  forall (E : env) (s : state) (topic length model msg : string),
    gemini_model (self s) = Some model ->
    genai_generate E model (prompts s) (article_prompt topic (word_count length))
    = inr msg ->
    generate_article_with_gemini E topic length s
    = (Raise (ServiceError msg),
       mkState (self s) (sent s)
         (prompts s ++ [article_prompt topic (word_count length)])%list (fs s)).
Proof.
  intros E s topic length model msg Hmodel Hfail.
  rewrite (generate_article_run E s topic length model Hmodel). cbv zeta.
  rewrite Hfail. reflexivity.
Qed.

Lemma generation_failure_propagates_witness :
  let E := mkEnv (fun k => dict_get k full_config)
             (always_ok (JObj [("token", JStr "t")]))
             (fun _ _ => None) (fun _ _ _ => inr "quota exceeded")
             (mkDatetime 2026 11 4 9 5 0) (fun _ => "") (fun s => s) (fun s => s) in
  fst (generate_article_with_gemini E "x" "short" good_state)
  = Raise (ServiceError "quota exceeded").
Proof.
  intros E.
  rewrite (generation_failure_propagates E good_state "x" "short" "gemini-1.5-flash"
             "quota exceeded" eq_refl eq_refl).
  reflexivity.
Defined.

Lemma lstrip_by_starts_clean (p : ascii -> bool) (s : string) :
  starts_clean p (Py.lstrip_by p s) = true.
Proof.
  induction s as [|c s IH]; simpl; [reflexivity|].
  destruct (p c) eqn:Hc; [exact IH | simpl; now rewrite Hc].
Qed.

Lemma rstrip_by_starts_clean (p : ascii -> bool) (s : string) :
  starts_clean p s = true -> starts_clean p (Py.rstrip_by p s) = true.
Proof.
  destruct s as [|c s]; simpl; [reflexivity|].
  intros Hc. destruct (Py.rstrip_by p s).
  - destruct (p c) eqn:Hp; [reflexivity | simpl; now rewrite Hp].
  - exact Hc.
Qed.

(** [strip()] leaves no whitespace at either end. *)
Lemma strip_is_trimmed (s : string) :
  starts_clean Py.isspace (Py.strip s) = true
  /\ ends_clean Py.isspace (Py.strip s) = true.
Proof.
  unfold Py.strip. split.
  - apply rstrip_by_starts_clean, lstrip_by_starts_clean.
  - apply rstrip_by_ends_clean.
Qed.

Lemma all_chars_strip (p : ascii -> bool) (s : string) :
  all_chars p s = true -> all_chars p (Py.strip s) = true.
Proof.
  intros H. unfold Py.strip. now apply all_chars_rstrip_by, all_chars_lstrip_by.
Qed.

(** X16.  When an ASCII answer begins with a heading line, the title and
    the content returned are ASCII text that neither begins nor ends with
    whitespace, whatever blank lines and spaces surround the heading and
    the text. *)
Theorem heading_article_is_trimmed :
  forall (E : env) (s : state) (topic length model text : string),
    gemini_model (self s) = Some model ->
    genai_generate E model (prompts s) (article_prompt topic (word_count length))
    = inl text ->
    all_chars is_ascii text = true ->
    Py.startswith "#" (hd "" (Py.split newline text)) = true ->
    exists title content,
      fst (generate_article_with_gemini E topic length s)
      = Return [("title", title); ("content", content)]
      /\ all_chars is_ascii title = true /\ all_chars is_ascii content = true
      /\ starts_clean Py.isspace title = true /\ ends_clean Py.isspace title = true
      /\ starts_clean Py.isspace content = true /\ ends_clean Py.isspace content = true.
Proof.
  intros E s topic length model text Hmodel Htext Hascii Hhead.
  rewrite (generate_article_run E s topic length model Hmodel). cbv zeta.
  rewrite Htext. cbn [fst]. unfold article_of. rewrite Hhead.
  destruct (heading_parts_ascii E text Hascii) as [-> ->].
  pose proof (all_chars_split is_ascii newline text Hascii) as Hlines.
  do 2 eexists. split; [reflexivity|].
  split; [apply all_chars_strip, all_chars_strip_chars, all_chars_hd, Hlines|].
  split; [apply all_chars_strip, all_chars_join;
          [reflexivity | apply all_chars_tl, Hlines]|].
  split; [apply strip_is_trimmed|]. split; [apply strip_is_trimmed|].
  split; apply strip_is_trimmed.
Qed.

Lemma heading_article_is_trimmed_witness :
  exists title content,
    fst (generate_article_with_gemini heading_world "belajar c" "long" heading_state)
    = Return [("title", title); ("content", content)]
    /\ starts_clean Py.isspace content = true.
Proof.
  destruct (heading_article_is_trimmed heading_world heading_state "belajar c" "long"
              "gemini-1.5-flash" heading_answer eq_refl eq_refl eq_refl eq_refl)
    as (title & content & Hret & _ & _ & _ & _ & Hc & _).
  exists title, content. split; [exact Hret | exact Hc].
Defined.

(** ** More on request bodies *)

(** X17.  [update_user] sends one POST to the user's URL whose body holds
    [email] when the email is supplied and not empty, and [roles], the
    role wrapped in a one-element list, when the role is supplied and not
    empty; with neither, the request is still sent, with an empty body. *)
Theorem update_user_body :
  forall (E : env) (s : state) (user_id : Z) (email role : option string),
    exists r data,
      new_requests s (snd (update_user E user_id email role s)) = [r]
      /\ req_method r = POST
      /\ req_url r = api_url (self s) ++ "/users/" ++ Py.str_int user_id
      /\ req_body r = JsonBody (JObj data)
      /\ dict_keys data
         = ((if truthy_str email then ["email"] else [])
            ++ (if truthy_str role then ["roles"] else []))%list
      /\ (forall e, email = Some e -> e <> "" -> dict_get "email" data = Some (JStr e))
      /\ (forall ro, role = Some ro -> ro <> "" ->
            dict_get "roles" data = Some (JArr [JStr ro]))
      /\ (truthy_str email = false -> truthy_str role = false -> data = []).
Proof.
  intros E s user_id email role.
  exists (mkRequest POST (api_url (self s) ++ "/users/" ++ Py.str_int user_id)
            (headers (self s)) (JsonBody (JObj (update_user_data email role))) 10),
    (update_user_data email role).
  split.
  { apply new_requests_app. unfold update_user, bind, get_self.
    rewrite fetch_state. reflexivity. }
  split; [reflexivity|]. split; [reflexivity|]. split; [reflexivity|].
  unfold update_user_data. split; [|split; [|split]].
  - destruct (truthy_str email), (truthy_str role); reflexivity.
  - intros e -> He. apply String.eqb_neq in He. simpl. rewrite He. simpl.
    destruct (truthy_str role); reflexivity.
  - intros ro -> Hro. apply String.eqb_neq in Hro. simpl (truthy_str (Some ro)).
    rewrite Hro. simpl. destruct (truthy_str email); reflexivity.
  - intros -> ->. reflexivity.
Qed.

Lemma update_user_body_witness :
  exists r,
    new_requests good_state
      (snd (update_user good_world 4 (Some "") (Some "author") good_state)) = [r]
    /\ req_body r = JsonBody (JObj [("roles", JArr [JStr "author"])]).
Proof.
  destruct (update_user_body good_world good_state 4 (Some "") (Some "author"))
    as (r & data & Hr & _ & _ & Hbody & _).
  exists r. split; [exact Hr|].
  pose proof Hr as Hr'. vm_compute in Hr'. injection Hr' as <-. reflexivity.
Defined.

(** Each field a post body holds carries the value supplied for it:
    [create_post] always sends the title, content, status and type it was
    given, and both [create_post] and [update_post] send, for each
    optional argument that is supplied and truthy, that argument under its
    field, and nothing under the field otherwise. *)
Lemma post_bodies_hold_the_supplied_values :
  forall (title content status post_type : string) (new_title new_content : option string)
         (categories : option (list Z)) (featured_image_id : option Z),
    let created := create_post_data title content categories featured_image_id
                     status post_type in
    let updated := update_post_data new_title new_content categories featured_image_id in
    dict_get "title" created = Some (JStr title)
    /\ dict_get "content" created = Some (JStr content)
    /\ dict_get "status" created = Some (JStr status)
    /\ dict_get "type" created = Some (JStr post_type)
    /\ dict_get "categories" created
       = (if truthy_list categories then Some (ids_arg categories) else None)
    /\ dict_get "featured_media" created
       = (if truthy_int featured_image_id then Some (int_arg featured_image_id) else None)
    /\ dict_get "title" updated
       = (if truthy_str new_title then Some (str_arg new_title) else None)
    /\ dict_get "content" updated
       = (if truthy_str new_content then Some (str_arg new_content) else None)
    /\ dict_get "categories" updated
       = (if truthy_list categories then Some (ids_arg categories) else None)
    /\ dict_get "featured_media" updated
       = (if truthy_int featured_image_id then Some (int_arg featured_image_id) else None).
Proof.
  intros title content status post_type new_title new_content categories fid
    created updated.
  subst created updated. unfold create_post_data, update_post_data.
  destruct (truthy_str new_title), (truthy_str new_content), (truthy_list categories),
    (truthy_int fid); repeat split.
Qed.

(** ** The driver *)

Lemma sends_within_refl (P : request -> Prop) (s : state) : sends_within P 0 s s.
Proof.
  split; [reflexivity|]. exists []. rewrite app_nil_r.
  split; [reflexivity|]. split; [constructor | simpl; lia].
Qed.

Lemma sends_within_le (P : request -> Prop) (n m : nat) (s s' : state) :
  (n <= m)%nat -> sends_within P n s s' -> sends_within P m s s'.
Proof.
  intros Hle (Hfs & l & Hsent & Hl & Hlen).
  split; [exact Hfs|]. exists l. repeat split; try assumption. lia.
Qed.

Lemma sends_within_trans (P : request -> Prop) (n k : nat) (s s1 s2 : state) :
  sends_within P n s s1 -> sends_within P k s1 s2 -> sends_within P (n + k) s s2.
Proof.
  intros (Hfs1 & l1 & Hs1 & Hl1 & Hn1) (Hfs2 & l2 & Hs2 & Hl2 & Hn2).
  split; [congruence|]. exists (l1 ++ l2)%list. split; [|split].
  - rewrite Hs2, Hs1, app_assoc. reflexivity.
  - apply Forall_app. split; assumption.
  - rewrite length_app. lia.
Qed.

(** Sequencing adds up what the two parts send. *)
Lemma bind_within {A B} (P : request -> Prop) (n k : nat) (m : M A) (f : A -> M B) :
  (forall s, sends_within P n s (snd (m s))) ->
  (forall a s, sends_within P k s (snd (f a s))) ->
  forall s, sends_within P (n + k) s (snd (bind m f s)).
Proof.
  intros Hm Hf s. unfold bind. specialize (Hm s).
  destruct (m s) as [[a|e] s1]; simpl in *.
  - eapply sends_within_trans; [exact Hm | apply Hf].
  - eapply sends_within_le; [|exact Hm]. lia.
Qed.

Lemma within_all_le {A} (P : request -> Prop) (n k : nat) (m : M A) :
  (n <= k)%nat ->
  (forall s, sends_within P n s (snd (m s))) ->
  forall s, sends_within P k s (snd (m s)).
Proof. intros Hle H s. eapply sends_within_le; [exact Hle | apply H]. Qed.

(** What follows a statement that raises is never run. *)
Lemma raise_within {A B} (P : request -> Prop) (e : exn) (f : A -> M B) (s : state) :
  sends_within P 0 s (snd (bind (raise e) f s)).
Proof. apply sends_within_refl. Qed.

Lemma fetch_within (E : env) (P : request -> Prop) (r : request) (s : state) :
  P r -> sends_within P 1 s (snd (fetch E r s)).
Proof.
  intros Hr. rewrite fetch_state. split; [reflexivity|].
  exists [r]. split; [reflexivity|]. split; [repeat constructor; exact Hr | simpl; lia].
Qed.

Lemma json_item_state (k : string) (v : json) (s : state) : snd (json_item k v s) = s.
Proof.
  unfold json_item, ret, raise. destruct v; try reflexivity.
  destruct (dict_get k fields); reflexivity.
Qed.

Lemma each_item_state (k : string) (items : list json) (s : state) :
  snd (each_item k items s) = s.
Proof.
  induction items as [|x items IH]; simpl; [reflexivity|].
  unfold bind. pose proof (json_item_state k x s) as Hx.
  destruct (json_item k x s) as [[v|e] s1]; simpl in *; subst s1; [|reflexivity].
  destruct (each_item k items s) as [[vs|e] s2]; simpl in *; subst s2; reflexivity.
Qed.

Lemma theme_slugs_state (themes : json) (s : state) : snd (theme_slugs themes s) = s.
Proof.
  unfold theme_slugs. destruct themes; try reflexivity; apply each_item_state.
Qed.

Lemma dict_item_state {V} (k : string) (d : dict V) (s : state) :
  snd (dict_item k d s) = s.
Proof. unfold dict_item, ret, raise. destruct (dict_get k d); reflexivity. Qed.

Lemma put_self_within (P : request -> Prop) (m : manager) (s : state) :
  sends_within P 0 s (snd (put_self m s)).
Proof.
  split; [reflexivity|]. exists []. simpl. rewrite app_nil_r.
  split; [reflexivity|]. split; [constructor | simpl; lia].
Qed.

(** [__init__] sends at most the token request. *)
Lemma init_within (E : env) (s : state) :
  sends_within harmless 1 s (snd (__init__ E s)).
Proof.
  unfold __init__, _validate_config, bind, get_self, put_self, ret.
  destruct (getenv E "WORDPRESS_URL") as [u|];
    [|eapply sends_within_le; [|apply sends_within_refl]; lia].
  cbn [check_required self site_url username password gemini_api_key raise fst snd].
  assert (Hnone : forall m : manager,
             sends_within harmless 1 s (mkState m (sent s) (prompts s) (fs s))).
  { intros m. split; [reflexivity|]. exists []. rewrite app_nil_r.
    split; [reflexivity|]. split; [constructor | simpl; lia]. }
  destruct (truthy_str (Some (Py.rstrip_chars "/" u))); [|apply Hnone].
  destruct (truthy_str (getenv E "WORDPRESS_USERNAME")); [|apply Hnone].
  destruct (truthy_str (getenv E "WORDPRESS_PASSWORD")); [|apply Hnone].
  destruct (truthy_str (getenv E "GEMINI_API_KEY")); [|apply Hnone].
  unfold ret; cbn beta iota.
  match goal with |- context [authenticate E ?s0] => set (s1 := s0) end.
  assert (Hone : forall m : manager,
             sends_within harmless 1 s
               (mkState m (sent s1 ++ [token_request (self s1)])%list (prompts s1) (fs s1))).
  { intros m. split; [reflexivity|]. exists [token_request (self s1)].
    split; [reflexivity|]. split; [repeat constructor | simpl; lia]. }
  pose proof (authenticate_cases E s1) as H. cbv zeta in H.
  destruct (server E (sent s1) (token_request (self s1))) as [msg|r].
  { rewrite H. apply Hone. }
  destruct (http_error r).
  { destruct H as (msg & ->). apply Hone. }
  destruct (body r) as [j|msg]; [|rewrite H; apply Hone].
  destruct j; rewrite H; try apply Hone.
  unfold _configure_gemini, bind, get_self, put_self.
  cbn [self gemini_api_key fst snd].
  destruct (genai_setup E _ "gemini-1.5-flash"); apply Hone.
Qed.

Lemma generate_within (E : env) (P : request -> Prop) topic length (s : state) :
  sends_within P 0 s (snd (generate_article_with_gemini E topic length s)).
Proof.
  assert (Hsame : forall ps, sends_within P 0 s (mkState (self s) (sent s) ps (fs s))).
  { intros ps. split; [reflexivity|]. exists []. rewrite app_nil_r.
    split; [reflexivity|]. split; [constructor | simpl; lia]. }
  unfold generate_article_with_gemini, generate_content, first_item, bind, ret, raise.
  destruct (gemini_model (self s)) as [model|]; [|apply sends_within_refl].
  destruct (genai_generate E model (prompts s) _) as [text|msg]; [|apply Hsame].
  destruct (Py.split newline text); apply Hsame.
Qed.

Lemma upload_within (E : env) file_path alt_text description (s : state) :
  sends_within harmless 1 s (snd (upload_media E file_path alt_text description s)).
Proof.
  rewrite upload_media_state. split; [reflexivity|]. eexists. split; [reflexivity|].
  destruct (and_then _ _); [|split; [constructor | simpl; lia]].
  destruct (open_rb _ _); split; try constructor; simpl; try lia.
  - split; reflexivity.
  - constructor.
Qed.

(** X19.  [main] never gets past its call of [update_post], which passes a
    [status] argument the method does not take.  So, in every world, a run
    of [main] sends at most four requests (for the token, the themes, the
    new post and the media), none of them a deletion or the creation of a
    user, and writes no file: the user is never created, the backup never
    taken and nothing ever deleted. *)
Theorem main_stops_at_update_post :
  forall (E : env) (s : state),
    let s' := snd (main E s) in
    fs s' = fs s
    /\ (List.length (new_requests s s') <= 4)%nat
    /\ Forall harmless (new_requests s s').
Proof.
  intros E s s'.
  assert (H : sends_within harmless 4 s s').
  { subst s'. unfold main.
    assert (Htry : forall (m : M unit) s0,
               snd (try_except m (on_exception (ret tt)) s0) = snd (m s0)).
    { intros m s0. unfold try_except, on_exception, ret.
      destruct (m s0) as [[a|e] s1]; reflexivity. }
    rewrite Htry. revert s.
    eapply within_all_le; swap 1 2.
    - apply bind_within; [intros s; apply put_self_within | intros _].
      apply bind_within; [apply init_within | intros _].
      apply bind_within;
        [intros s; unfold list_themes, bind, get_self; apply fetch_within;
         split; reflexivity | intros themes].
      apply bind_within;
        [intros s; rewrite theme_slugs_state; apply sends_within_refl | intros _].
      apply bind_within; [apply generate_within | intros article].
      apply bind_within;
        [intros s; rewrite dict_item_state; apply sends_within_refl | intros title].
      apply bind_within;
        [intros s; rewrite dict_item_state; apply sends_within_refl | intros content].
      apply bind_within;
        [intros s; unfold create_post, bind, get_self; apply fetch_within;
         split; reflexivity | intros post].
      apply bind_within;
        [intros s; rewrite json_item_state; apply sends_within_refl | intros _].
      apply bind_within; [apply upload_within | intros media].
      apply bind_within;
        [intros s; rewrite json_item_state; apply sends_within_refl | intros _].
      apply bind_within;
        [intros s; rewrite json_item_state; apply sends_within_refl | intros _].
      apply bind_within;
        [intros s; rewrite json_item_state; apply sends_within_refl | intros _].
      intros s. apply raise_within.
    - simpl. lia. }
  destruct H as (Hfs & l & Hsent & Hl & Hlen).
  rewrite (new_requests_app s s' l Hsent). repeat split; assumption.
Qed.

(** In a world where every step up to there succeeds, the run ends after
    the upload: the last request is the one for the media. *)
Example main_demo :
  map (fun r => (req_method r, req_url r))
      (new_requests demo_state (snd (main demo_world demo_state)))
  = [(POST, "https://blog.example/wp-json/jwt-auth/v1/token");
     (GET, "https://blog.example/wp-json/wp/v2/themes");
     (POST, "https://blog.example/wp-json/wp/v2/posts");
     (POST, "https://blog.example/wp-json/wp/v2/media")].
Proof. vm_compute. reflexivity. Qed.

(** On an integer id the driver's calls are the typed ones. *)
Lemma delete_post_dyn_int (E : env) (post_id : Z) (post_type : string) (s : state) :
  delete_post_dyn E (JInt post_id) post_type s = delete_post E post_id post_type s.
Proof. reflexivity. Qed.

Lemma delete_user_dyn_int (E : env) (user_id : Z) (reassign : option Z) (s : state) :
  delete_user_dyn E (JInt user_id) reassign s = delete_user E user_id reassign s.
Proof. reflexivity. Qed.
